(** * Subscription lifecycle of api-transcript

    A shallow embedding of [src/features/Subscription/subscription.service.js]:
    checkout creation, the Mercado Pago webhook reconciler, the order status
    poller and the lazy expiry done by [getUserActivePlan].

    Conventions of the embedding.
    - The three Sequelize tables are finite maps from primary key to row; a
      loaded instance is a key together with the row read under it.
    - Identifiers (primary keys, Mercado Pago preapproval ids) are opaque and
      never empty, so a nullable identifier is an [option] and its JavaScript
      truthiness is [is_Some].  Only equality and presence are observed.
    - A [Date] is its [getTime()] value, an integer number of milliseconds.
    - An [async] method is a function from the store to a new store and a
      completion: it either returns a value or throws.  Effects done before a
      throw stay (there is no transaction in the source).
    - The payment gateway and the failures of the store are given by an
      environment [Env], one per call of a service method. *)

From Stdlib Require Import ZArith String List Lia.
From stdpp Require Import base option gmap.

Local Open Scope string_scope.
Local Open Scope Z_scope.

(** ** Data model *)

Definition Id := positive.
Definition ProviderId := positive.
Definition Timestamp := Z.

Module Plan.
Record t := mk {
  name : string;
  price : Z;              (* DECIMAL column, counted in centavos *)
  durationInDays : Z
}.
End Plan.

Module User.
Record t := mk {
  email : string;
  planId : option Id;
  planExpiresAt : option Timestamp;
  transcriptionsUsedCount : Z;
  transcriptionMinutesUsed : Z;
  agentUsesUsed : Z;
  assistantUsesUsed : Z
}.
End User.

(** The record Mercado Pago returns for a preapproval (a subscription):
    [id] and [init_point] are read by the checkout, [status] and
    [external_reference] by the reconcilers.  A missing, null or empty
    [external_reference] is [None]. *)
Module Preapproval.
Record t := mk {
  id : ProviderId;
  init_point : string;
  status : string;
  external_reference : option Id
}.
End Preapproval.

(** Modelled from the spec: the model declaration of SubscriptionOrder is not
    in the sources; the data model of the specification gives its status
    column the three values pending, approved and cancelled, which are also
    the only values the service writes. *)
Inductive OrderStatus := pending | approved | cancelled.

#[global] Instance OrderStatus_eq_dec : EqDecision OrderStatus.
Proof. solve_decision. Defined.

Module SubscriptionOrder.
Record t := mk {
  userId : Id;
  planId : Id;
  totalAmount : Z;
  status : OrderStatus;
  mercadopagoPreferenceId : option ProviderId;
  mercadopagoPaymentId : option ProviderId;
  mercadopagoPaymentDetails : option Preapproval.t
}.
End SubscriptionOrder.

(** A thrown JavaScript value: the name of its class, its message, and
    [error.response?.data?.message] when the thrower attached one. *)
Record JsError := {
  err_name : string;
  err_message : string;
  err_response_message : option string
}.

(** [new Error(msg)] *)
Definition new_Error (msg : string) : JsError :=
  {| err_name := "Error"; err_message := msg; err_response_message := None |}.

(** The TypeError raised by reading a property of [undefined] or [null]. *)
Definition TypeError (msg : string) : JsError :=
  {| err_name := "TypeError"; err_message := msg; err_response_message := None |}.

Inductive Completion (A : Type) : Type :=
| Returned (a : A)
| Threw (e : JsError).
Arguments Returned {A} a.
Arguments Threw {A} e.

(** The body of a webhook request: [{ type, data: { id } }]; a body that is
    null or lacks [data] is malformed, and [wd_id] is [None] when [data.id]
    is undefined. *)
Record WebhookData := { wd_id : option ProviderId }.
Record Notification := { n_type : string; n_data : option WebhookData }.

(** The payload of [mercadopago.preapproval.create].  The two dates are kept
    as timestamps (their formatting by [formatMercadoPagoDate] is not
    modelled); the two callback URLs are constants of the deployment. *)
Record SubscriptionPayload := {
  reason : string;
  payload_external_reference : Id;
  payer_email : string;
  frequency : Z;
  frequency_type : string;
  transaction_amount : Z;
  currency_id : string;
  start_date : Timestamp;
  end_date : Timestamp;
  payload_status : string
}.

Inductive GatewayCall :=
| PreapprovalGet (id : option ProviderId)
| PreapprovalCreate (payload : SubscriptionPayload).

Inductive ConsoleLine :=
| ConsoleLog (msg : string)
| ConsoleError (msg : string) (detail : option JsError).

(** The state the service acts on: the three tables, the calls made to the
    gateway so far, and what was written to the console. *)
Record World := {
  users : gmap Id User.t;
  plans : gmap Id Plan.t;
  orders : gmap Id SubscriptionOrder.t;
  gatewayCalls : list GatewayCall;
  console : list ConsoleLine
}.

(** A SubscriptionOrder instance as [findByPk] loads it.  An association is
    [None] when the query did not include it and [Some None] when it was
    included and the referenced row does not exist. *)
Record OrderInstance := {
  inst_id : Id;
  inst_row : SubscriptionOrder.t;
  inst_user : option (option (Id * User.t));
  inst_plan : option (option (Id * Plan.t))
}.

(** The call sites of the store, so that a failure can be placed at any of
    them. *)
Inductive StoreOp :=
| OpUserFindByPk
| OpPlanFindByPk
| OpOrderCreate
| OpOrderFindByPk
| OpOrderUpdate
| OpUserUpdate
| OpOrderRefetch.

Record Env := {
  isConfigured : bool;                                       (* mercadopago.isConfigured *)
  preapproval_get : option ProviderId -> Completion Preapproval.t;
  preapproval_create : SubscriptionPayload -> Completion Preapproval.t;
  storeFault : StoreOp -> option JsError;                    (* the error a store call rejects with *)
  createdOrderId : Id;                                       (* the key the store gives a created order *)
  oneYearAfter : Timestamp -> Timestamp                      (* setFullYear(getFullYear() + 1) *)
}.

(** The store answers every call of this request. *)
Definition healthy (env : Env) : Prop := forall op, storeFault env op = None.

(** ** Asynchronous computations: state and exceptions *)

Section Monad.
Context {S : Type}.

Definition M (A : Type) : Type := S -> S * Completion A.

Definition ret {A} (a : A) : M A := fun s => (s, Returned a).

Definition throw {A} (e : JsError) : M A := fun s => (s, Threw e).

Definition bind {A B} (m : M A) (k : A -> M B) : M B :=
  fun s => match m s with
           | (s', Returned a) => k a s'
           | (s', Threw e) => (s', Threw e)
           end.

(** [try { m } catch (e) { h e }] *)
Definition try_catch {A} (m : M A) (h : JsError -> M A) : M A :=
  fun s => match m s with
           | (s', Returned a) => (s', Returned a)
           | (s', Threw e) => h e s'
           end.

Definition gets {A} (f : S -> A) : M A := fun s => (s, Returned (f s)).

Definition modify (f : S -> S) : M unit := fun s => (f s, Returned tt).

End Monad.
Arguments M : clear implicits.

Declare Scope js_scope.
Delimit Scope js_scope with js.
Notation "'let*' x ':=' c1 'in' c2" := (bind c1 (fun x => c2))
  (at level 10, x pattern, c1 at level 100, c2 at level 200) : js_scope.
Notation "c1 ';;' c2" := (bind c1 (fun _ => c2))
  (at level 100, c2 at level 200, right associativity) : js_scope.
Local Open Scope js_scope.

(** ** Dates *)

Definition msPerDay : Z := 86400000.

(** [d.setDate(d.getDate() + days)], for a server whose time zone has a
    fixed offset: every day has 24 hours. *)
Definition addDays (d : Timestamp) (days : Z) : Timestamp := d + days * msPerDay.

(** ** The collaborators: console, gateway, store *)

Definition set_console (f : list ConsoleLine -> list ConsoleLine) (w : World) : World :=
  {| users := users w; plans := plans w; orders := orders w;
     gatewayCalls := gatewayCalls w; console := f (console w) |}.

Definition set_gatewayCalls (f : list GatewayCall -> list GatewayCall) (w : World) : World :=
  {| users := users w; plans := plans w; orders := orders w;
     gatewayCalls := f (gatewayCalls w); console := console w |}.

Definition set_orders (f : gmap Id SubscriptionOrder.t -> gmap Id SubscriptionOrder.t)
    (w : World) : World :=
  {| users := users w; plans := plans w; orders := f (orders w);
     gatewayCalls := gatewayCalls w; console := console w |}.

Definition set_users (f : gmap Id User.t -> gmap Id User.t) (w : World) : World :=
  {| users := f (users w); plans := plans w; orders := orders w;
     gatewayCalls := gatewayCalls w; console := console w |}.

Definition console_log (msg : string) : M World unit :=
  modify (set_console (fun c => (c ++ [ConsoleLog msg])%list)).

Definition console_error (msg : string) (detail : option JsError) : M World unit :=
  modify (set_console (fun c => (c ++ [ConsoleError msg detail])%list)).

(** [await mercadopago.preapproval.get(id)]: the call is recorded, then the
    gateway answers or rejects. *)
Definition mercadopago_preapproval_get (env : Env) (id : option ProviderId)
    : M World Preapproval.t :=
  fun w => (set_gatewayCalls (fun l => (l ++ [PreapprovalGet id])%list) w, preapproval_get env id).

(** [await mercadopago.preapproval.create(payload)] *)
Definition mercadopago_preapproval_create (env : Env) (payload : SubscriptionPayload)
    : M World Preapproval.t :=
  fun w => (set_gatewayCalls (fun l => (l ++ [PreapprovalCreate payload])%list) w,
            preapproval_create env payload).

(** A call of the store: it rejects with the environment's error for this
    call site, or runs. *)
Definition store {A} (env : Env) (op : StoreOp) (m : M World A) : M World A :=
  match storeFault env op with
  | Some e => throw e
  | None => m
  end.

(** [User.findByPk(userId)] *)
Definition User_findByPk (env : Env) (userId : Id) : M World (option (Id * User.t)) :=
  store env OpUserFindByPk (gets (fun w => pair userId <$> users w !! userId)).

(** [Plan.findByPk(planId)] *)
Definition Plan_findByPk (env : Env) (planId : Id) : M World (option (Id * Plan.t)) :=
  store env OpPlanFindByPk (gets (fun w => pair planId <$> plans w !! planId)).

(** [SubscriptionOrder.findByPk(id, { include: [user, plan] })] *)
Definition load_order (w : World) (id : Id) : option OrderInstance :=
  match orders w !! id with
  | Some row =>
      Some {| inst_id := id; inst_row := row;
              inst_user := Some (pair (SubscriptionOrder.userId row)
                                   <$> users w !! SubscriptionOrder.userId row);
              inst_plan := Some (pair (SubscriptionOrder.planId row)
                                   <$> plans w !! SubscriptionOrder.planId row) |}
  | None => None
  end.

Definition SubscriptionOrder_findByPk_include (env : Env) (id : Id)
    : M World (option OrderInstance) :=
  store env OpOrderFindByPk (gets (fun w => load_order w id)).

(** [instance.update(values)] on an order: the columns named in [values] are
    written to the row of the instance's key. *)
Definition SubscriptionOrder_update (env : Env) (id : Id)
    (values : SubscriptionOrder.t -> SubscriptionOrder.t) : M World unit :=
  store env OpOrderUpdate (modify (set_orders (alter values id))).

(** [user.update(values)] *)
Definition User_update (env : Env) (id : Id) (values : User.t -> User.t) : M World unit :=
  store env OpUserUpdate (modify (set_users (alter values id))).

(** [SubscriptionOrder.findByPk(id)], without associations (line 238). *)
Definition SubscriptionOrder_findByPk (env : Env) (id : Id) : M World (option OrderInstance) :=
  store env OpOrderRefetch
    (gets (fun w => (fun row => {| inst_id := id; inst_row := row;
                                   inst_user := None; inst_plan := None |})
                    <$> orders w !! id)).

(** [User.findByPk(userId, { include: [currentPlan] })]: the user and the
    plan its [planId] references, if any. *)
Definition User_findByPk_include (env : Env) (userId : Id)
    : M World (option (Id * User.t * option (Id * Plan.t))) :=
  store env OpUserFindByPk
    (gets (fun w =>
       (fun user => (userId, user,
                     match User.planId user with
                     | Some planId => pair planId <$> plans w !! planId
                     | None => None
                     end))
       <$> users w !! userId)).

Definition SequelizeUniqueConstraintError : JsError :=
  {| err_name := "SequelizeUniqueConstraintError"; err_message := "Validation error";
     err_response_message := None |}.

(** [SubscriptionOrder.create(values)]: the row is stored under the key the
    store generates, which must be free. *)
Definition SubscriptionOrder_create (env : Env) (values : SubscriptionOrder.t)
    : M World OrderInstance :=
  store env OpOrderCreate
    (let* taken := gets (fun w => orders w !! createdOrderId env) in
     match taken with
     | Some _ => throw SequelizeUniqueConstraintError
     | None =>
         modify (set_orders (insert (createdOrderId env) values)) ;;
         ret {| inst_id := createdOrderId env; inst_row := values;
                inst_user := None; inst_plan := None |}
     end).

(** An included association that is present ([x && ...] in the source). *)
Definition present {A} (assoc : option (option A)) : option A :=
  match assoc with
  | Some (Some a) => Some a
  | _ => None
  end.

(** ** The subscription service *)

(** Lines 153-159, repeated at lines 226-230: the expiration a grant writes.
    It starts from now, or from the user's current expiration when that one
    is later than now, and adds the plan's duration. *)
Definition newExpirationDate (now : Timestamp) (user : User.t) (plan : Plan.t) : Timestamp :=
  let newExpirationDate := now in
  let newExpirationDate :=
    match User.planExpiresAt user with
    | Some planExpiresAt => if now <? planExpiresAt then planExpiresAt else newExpirationDate
    | None => newExpirationDate
    end in
  addDays newExpirationDate (Plan.durationInDays plan).

(** Lines 133-139: the status the webhook writes to the order. *)
Definition newStatus (preapprovalBody : Preapproval.t) : OrderStatus :=
  if String.eqb (Preapproval.status preapprovalBody) "authorized" then approved
  else if String.eqb (Preapproval.status preapprovalBody) "cancelled"
          || String.eqb (Preapproval.status preapprovalBody) "paused" then cancelled
  else pending.

(** Lines 142-146.  Sequelize leaves out a value that is undefined, so the
    payment id column is written only when the notification carried an id. *)
Definition webhook_order_values (newStatus : OrderStatus) (preapprovalId : option ProviderId)
    (preapprovalBody : Preapproval.t) (o : SubscriptionOrder.t) : SubscriptionOrder.t :=
  {| SubscriptionOrder.userId := SubscriptionOrder.userId o;
     SubscriptionOrder.planId := SubscriptionOrder.planId o;
     SubscriptionOrder.totalAmount := SubscriptionOrder.totalAmount o;
     SubscriptionOrder.status := newStatus;
     SubscriptionOrder.mercadopagoPreferenceId := SubscriptionOrder.mercadopagoPreferenceId o;
     SubscriptionOrder.mercadopagoPaymentId :=
       match preapprovalId with
       | Some id => Some id
       | None => SubscriptionOrder.mercadopagoPaymentId o
       end;
     SubscriptionOrder.mercadopagoPaymentDetails := Some preapprovalBody |}.

(** Lines 161-168: the grant of the webhook, which also resets the usage
    counters. *)
Definition webhook_grant_values (planId : Id) (newExpirationDate : Timestamp) (u : User.t)
    : User.t :=
  {| User.email := User.email u;
     User.planId := Some planId;
     User.planExpiresAt := Some newExpirationDate;
     User.transcriptionsUsedCount := 0;
     User.transcriptionMinutesUsed := 0;
     User.agentUsesUsed := 0;
     User.assistantUsesUsed := 0 |}.

(** Lines 173-176 (with [planExpiresAt] the current time) and line 316 (with
    [planExpiresAt] null): the plan is taken from the user. *)
Definition remove_plan_values (planExpiresAt : option Timestamp) (u : User.t) : User.t :=
  {| User.email := User.email u;
     User.planId := None;
     User.planExpiresAt := planExpiresAt;
     User.transcriptionsUsedCount := User.transcriptionsUsedCount u;
     User.transcriptionMinutesUsed := User.transcriptionMinutesUsed u;
     User.agentUsesUsed := User.agentUsesUsed u;
     User.assistantUsesUsed := User.assistantUsesUsed u |}.

(** Lines 148-180: the entitlement step of the webhook, taken on the status
    just written and on the user and plan loaded with the order. *)
Definition webhook_entitlement (env : Env) (now : Timestamp) (newStatus : OrderStatus)
    (user : option (Id * User.t)) (plan : option (Id * Plan.t)) : M World unit :=
  match newStatus, user, plan with
  | approved, Some (userId, user), Some (planId, plan) =>
      let newExpirationDate := newExpirationDate now user plan in
      User_update env userId (webhook_grant_values planId newExpirationDate) ;;
      console_log "Plano ativado/renovado para o usuário"
  | cancelled, Some (userId, user), _ =>
      User_update env userId (remove_plan_values (Some now)) ;;
      console_log "Assinatura do usuário foi cancelada. Plano removido."
  | _, _, _ => console_log "Status da assinatura atualizado"
  end.

(** Lines 109-180: the body of the [try] of [processWebhook]. *)
Definition processWebhook_try (env : Env) (now : Timestamp) (data : option Notification)
    : M World unit :=
  match data with
  | None => throw (TypeError "Cannot destructure property 'type' of 'data' as it is null.")
  | Some data =>
    if String.eqb (n_type data) "preapproval" then
      match n_data data with
      | None => throw (TypeError "Cannot read properties of undefined (reading 'id')")
      | Some webhookData =>
        let preapprovalId := wd_id webhookData in
        let* preapprovalBody := mercadopago_preapproval_get env preapprovalId in
        match Preapproval.external_reference preapprovalBody with
        | None => console_log "Webhook de assinatura sem external_reference. Ignorando."
        | Some subscriptionOrderId =>
          let* found := SubscriptionOrder_findByPk_include env subscriptionOrderId in
          match found with
          | None => console_log "Pedido de assinatura não encontrado. Ignorando webhook."
          | Some subscriptionOrder =>
            let newStatus := newStatus preapprovalBody in
            SubscriptionOrder_update env (inst_id subscriptionOrder)
              (webhook_order_values newStatus preapprovalId preapprovalBody) ;;
            let user := present (inst_user subscriptionOrder) in
            let plan := present (inst_plan subscriptionOrder) in
            webhook_entitlement env now newStatus user plan
          end
        end
      end
    else ret tt
  end.

(** Lines 107-185. *)
Definition processWebhook (env : Env) (now : Timestamp) (data : option Notification)
    : M World unit :=
  try_catch (processWebhook_try env now data)
    (fun error => console_error "Erro ao processar webhook de assinatura:" (Some error)).

(** *** The status poller *)

(** The poller keeps the instance it loaded in a local variable, changes it
    in memory with every [update] and returns it at line 244, so its [try]
    blocks run on the store together with that instance.  [update] sets the
    values on the instance and then saves them: a rejected save leaves the
    values set in memory. *)
Definition liftW {A} (m : M World A) : M (World * OrderInstance) A :=
  fun s => match m (fst s) with
           | (w', c) => ((w', snd s), c)
           end.

Definition with_instance {A} (i : OrderInstance) (m : M (World * OrderInstance) A)
    : M World A :=
  fun w => match m (w, i) with
           | (s', c) => (fst s', c)
           end.

Definition this_instance : M (World * OrderInstance) OrderInstance := gets snd.

Definition set_instance (f : OrderInstance -> OrderInstance) : M (World * OrderInstance) unit :=
  modify (fun s => (fst s, f (snd s))).

(** [subscriptionOrder.update(values)] *)
Definition instance_update_order (env : Env) (values : SubscriptionOrder.t -> SubscriptionOrder.t)
    : M (World * OrderInstance) unit :=
  set_instance (fun i => {| inst_id := inst_id i; inst_row := values (inst_row i);
                            inst_user := inst_user i; inst_plan := inst_plan i |}) ;;
  let* i := this_instance in
  liftW (SubscriptionOrder_update env (inst_id i) values).

(** [subscriptionOrder.user.update(values)] *)
Definition instance_update_user (env : Env) (userId : Id) (values : User.t -> User.t)
    : M (World * OrderInstance) unit :=
  set_instance (fun i => {| inst_id := inst_id i; inst_row := inst_row i;
                            inst_user := option_map (option_map (fun u => (fst u, values (snd u))))
                                           (inst_user i);
                            inst_plan := inst_plan i |}) ;;
  liftW (User_update env userId values).

(** Lines 212-214: the status the poller wants, which starts from the
    order's own. *)
Definition statusAtualizado (status : OrderStatus) (preapprovalData : Preapproval.t)
    : OrderStatus :=
  let statusAtualizado := status in
  let statusAtualizado :=
    if String.eqb (Preapproval.status preapprovalData) "authorized" then approved
    else statusAtualizado in
  let statusAtualizado :=
    if String.eqb (Preapproval.status preapprovalData) "cancelled"
       || String.eqb (Preapproval.status preapprovalData) "paused" then cancelled
    else statusAtualizado in
  statusAtualizado.

(** Lines 217-220 *)
Definition poll_order_values (statusAtualizado : OrderStatus) (preapprovalData : Preapproval.t)
    (o : SubscriptionOrder.t) : SubscriptionOrder.t :=
  {| SubscriptionOrder.userId := SubscriptionOrder.userId o;
     SubscriptionOrder.planId := SubscriptionOrder.planId o;
     SubscriptionOrder.totalAmount := SubscriptionOrder.totalAmount o;
     SubscriptionOrder.status := statusAtualizado;
     SubscriptionOrder.mercadopagoPreferenceId := SubscriptionOrder.mercadopagoPreferenceId o;
     SubscriptionOrder.mercadopagoPaymentId := SubscriptionOrder.mercadopagoPaymentId o;
     SubscriptionOrder.mercadopagoPaymentDetails := Some preapprovalData |}.

(** Lines 231-234: the grant of the poller writes the plan and its
    expiration, nothing else. *)
Definition poll_grant_values (planId : Id) (newExpirationDate : Timestamp) (u : User.t)
    : User.t :=
  {| User.email := User.email u;
     User.planId := Some planId;
     User.planExpiresAt := Some newExpirationDate;
     User.transcriptionsUsedCount := User.transcriptionsUsedCount u;
     User.transcriptionMinutesUsed := User.transcriptionMinutesUsed u;
     User.agentUsesUsed := User.agentUsesUsed u;
     User.assistantUsesUsed := User.assistantUsesUsed u |}.

(** Lines 209-239, the body of the inner [try].  Its result is [Some r] when
    it returns [r] at line 238, and [None] when control goes on to line
    244. *)
Definition check_try_gateway (env : Env) (now : Timestamp) (subscriptionOrderId : Id)
    (preferenceId : ProviderId) : M (World * OrderInstance) (option (option OrderInstance)) :=
  let* preapprovalData := liftW (mercadopago_preapproval_get env (Some preferenceId)) in
  let* subscriptionOrder := this_instance in
  let statusAtualizado :=
    statusAtualizado (SubscriptionOrder.status (inst_row subscriptionOrder)) preapprovalData in
  if decide (statusAtualizado <> SubscriptionOrder.status (inst_row subscriptionOrder)) then
    instance_update_order env (poll_order_values statusAtualizado preapprovalData) ;;
    match statusAtualizado with
    | approved =>
        match present (inst_user subscriptionOrder), present (inst_plan subscriptionOrder) with
        | Some (userId, user), Some (planId, plan) =>
            let newExpirationDate := newExpirationDate now user plan in
            instance_update_user env userId (poll_grant_values planId newExpirationDate) ;;
            liftW (console_log "Plano ativado/estendido para o usuário via verificação de status.")
        | _, _ => ret tt
        end
    | _ => ret tt
    end ;;
    let* fresh := liftW (SubscriptionOrder_findByPk env subscriptionOrderId) in
    ret (Some fresh)
  else ret None.

(** Lines 194-244, the body of the outer [try]. *)
Definition checkSubscriptionOrderStatus_try (env : Env) (now : Timestamp)
    (subscriptionOrderId : Id) : M World (option OrderInstance) :=
  let* found := SubscriptionOrder_findByPk_include env subscriptionOrderId in
  match found with
  | None => throw (new_Error "Pedido de assinatura não encontrado.")
  | Some subscriptionOrder =>
    if decide (SubscriptionOrder.status (inst_row subscriptionOrder) = approved) then
      ret (Some subscriptionOrder)
    else
      with_instance subscriptionOrder
        (let* returned :=
           match SubscriptionOrder.mercadopagoPreferenceId (inst_row subscriptionOrder) with
           | Some preferenceId =>
               try_catch (check_try_gateway env now subscriptionOrderId preferenceId)
                 (fun mpError =>
                    liftW (console_error "Erro ao verificar status no Mercado Pago:"
                             (Some mpError)) ;;
                    ret None)
           | None => ret None
           end in
         match returned with
         | Some result => ret result
         | None => let* subscriptionOrder := this_instance in ret (Some subscriptionOrder)
         end)
  end.

(** Lines 192-249. *)
Definition checkSubscriptionOrderStatus (env : Env) (now : Timestamp) (subscriptionOrderId : Id)
    : M World (option OrderInstance) :=
  try_catch (checkSubscriptionOrderStatus_try env now subscriptionOrderId)
    (fun error =>
       console_error "Erro ao verificar status do pedido de assinatura:" (Some error) ;;
       throw error).

(** *** Checkout *)

Record CheckoutResult := {
  checkoutUrl : string;
  preapprovalId : ProviderId
}.

Definition msg_unavailable : string :=
  "O serviço de pagamento não está disponível no momento. Por favor, contate o suporte.".

Definition msg_gateway : string := "Erro ao comunicar com o serviço de pagamento.".

Definition msg_no_user : string := "Usuário não encontrado.".

Definition msg_no_plan : string := "Plano não encontrado.".

(** Line 98: [error.response?.data?.message || '...'].  An empty message is
    falsy. *)
Definition checkout_error_message (error : JsError) : string :=
  match err_response_message error with
  | Some message => if String.eqb message "" then msg_gateway else message
  | None => msg_gateway
  end.

(** Lines 63-78 *)
Definition subscriptionPayload (env : Env) (now : Timestamp) (orderId : Id) (user : User.t)
    (plan : Plan.t) : SubscriptionPayload :=
  let priceAsFloat := Plan.price plan in
  let endDate := oneYearAfter env now in
  {| reason := "Assinatura Mensal - Plano " ++ Plan.name plan;
     payload_external_reference := orderId;
     payer_email := User.email user;
     frequency := 1;
     frequency_type := "months";
     transaction_amount := priceAsFloat;
     currency_id := "BRL";
     start_date := now;
     end_date := endDate;
     payload_status := "pending" |}.

(** Lines 87-89 *)
Definition checkout_order_values (preferenceId : ProviderId) (o : SubscriptionOrder.t)
    : SubscriptionOrder.t :=
  {| SubscriptionOrder.userId := SubscriptionOrder.userId o;
     SubscriptionOrder.planId := SubscriptionOrder.planId o;
     SubscriptionOrder.totalAmount := SubscriptionOrder.totalAmount o;
     SubscriptionOrder.status := SubscriptionOrder.status o;
     SubscriptionOrder.mercadopagoPreferenceId := Some preferenceId;
     SubscriptionOrder.mercadopagoPaymentId := SubscriptionOrder.mercadopagoPaymentId o;
     SubscriptionOrder.mercadopagoPaymentDetails := SubscriptionOrder.mercadopagoPaymentDetails o |}.

(** Lines 43-94, the body of the [try]. *)
Definition createCheckoutForPlan_try (env : Env) (now : Timestamp) (userId planId : Id)
    : M World CheckoutResult :=
  let* user := User_findByPk env userId in
  let* plan := Plan_findByPk env planId in
  match user with
  | None => throw (new_Error msg_no_user)
  | Some (userId, user) =>
    match plan with
    | None => throw (new_Error msg_no_plan)
    | Some (planId, plan) =>
      let* subscriptionOrder :=
        SubscriptionOrder_create env
          {| SubscriptionOrder.userId := userId;
             SubscriptionOrder.planId := planId;
             SubscriptionOrder.totalAmount := Plan.price plan;
             SubscriptionOrder.status := pending;
             SubscriptionOrder.mercadopagoPreferenceId := None;
             SubscriptionOrder.mercadopagoPaymentId := None;
             SubscriptionOrder.mercadopagoPaymentDetails := None |} in
      let subscriptionPayload :=
        subscriptionPayload env now (inst_id subscriptionOrder) user plan in
      console_log "[MercadoPago] Enviando objeto de assinatura (preapproval):" ;;
      let* responseBody := mercadopago_preapproval_create env subscriptionPayload in
      SubscriptionOrder_update env (inst_id subscriptionOrder)
        (checkout_order_values (Preapproval.id responseBody)) ;;
      ret {| checkoutUrl := Preapproval.init_point responseBody;
             preapprovalId := Preapproval.id responseBody |}
    end
  end.

(** Lines 36-100.  Both clock readings of the method are taken at [now]. *)
Definition createCheckoutForPlan (env : Env) (now : Timestamp) (userId planId : Id)
    : M World CheckoutResult :=
  if negb (isConfigured env) then
    console_error
      "[Checkout] Tentativa de criar checkout, mas o SDK do Mercado Pago não está configurado."
      None ;;
    throw (new_Error msg_unavailable)
  else
    try_catch (createCheckoutForPlan_try env now userId planId)
      (fun error =>
         console_error "Erro ao criar checkout de assinatura:" (Some error) ;;
         throw (new_Error (checkout_error_message error))).

(** *** The active plan of a user *)

Record ActivePlan := {
  plan : Id * Plan.t;
  expiresAt : Timestamp;
  remainingDays : Z
}.

(** [Math.ceil(ms / (1000 * 60 * 60 * 24))] *)
Definition ceil_days (ms : Z) : Z := - ((- ms) / msPerDay).

(** Lines 297-319, the body of the [try].  Both clock readings are taken at
    [now]. *)
Definition getUserActivePlan_try (env : Env) (now : Timestamp) (userId : Id)
    : M World (option ActivePlan) :=
  let* found := User_findByPk_include env userId in
  match found with
  | None => throw (new_Error msg_no_user)
  | Some (userId, user, currentPlan) =>
    let active :=
      match currentPlan, User.planExpiresAt user with
      | Some currentPlan, Some planExpiresAt =>
          if now <? planExpiresAt then Some (currentPlan, planExpiresAt) else None
      | _, _ => None
      end in
    match active with
    | Some (currentPlan, planExpiresAt) =>
        ret (Some {| plan := currentPlan;
                     expiresAt := planExpiresAt;
                     remainingDays := ceil_days (planExpiresAt - now) |})
    | None =>
        match User.planId user with
        | Some _ => User_update env userId (remove_plan_values None)
        | None => ret tt
        end ;;
        ret None
    end
  end.

(** Lines 295-325. *)
Definition getUserActivePlan (env : Env) (now : Timestamp) (userId : Id)
    : M World (option ActivePlan) :=
  try_catch (getUserActivePlan_try env now userId)
    (fun error =>
       console_error "Erro ao obter plano ativo do usuário:" (Some error) ;;
       throw error).

(** *** Listing the orders *)











(** ** The administration service *)

(** [assignPlanToUser] answers with one of two messages; the second one is
    built from the plan's name, the user's email and the new expiration. *)
Inductive AssignResult :=
| PlanRemoved
| PlanAssigned (planName email : string) (newExpirationDate : Timestamp).

(** [user.planExpiresAt > newExpirationDate] without a guard on null: in a
    comparison with a [Date], null counts as 0. *)
Definition expires_after (planExpiresAt : option Timestamp) (now : Timestamp) : bool :=
  match planExpiresAt with
  | Some planExpiresAt => now <? planExpiresAt
  | None => now <? 0
  end.

(** [new Date(user.planExpiresAt)]; [new Date(null)] is the epoch. *)
Definition new_Date (planExpiresAt : option Timestamp) : Timestamp :=
  match planExpiresAt with
  | Some planExpiresAt => planExpiresAt
  | None => 0
  end.

(** src/features/Admin/admin.service.js, lines 98-123.  The method has no
    [try]: a rejected store call is thrown to the caller.  A null, undefined
    or empty [planId] is [None]. *)
Definition assignPlanToUser (env : Env) (now : Timestamp) (userId : Id) (planId : option Id)
    : M World AssignResult :=
  let* user := User_findByPk env userId in
  match user with
  | None => throw (new_Error msg_no_user)
  | Some (userId, user) =>
    match planId with
    | None =>
        User_update env userId (remove_plan_values None) ;;
        ret PlanRemoved
    | Some planId =>
        let* plan := Plan_findByPk env planId in
        match plan with
        | None => throw (new_Error msg_no_plan)
        | Some (_, plan) =>
            let newExpirationDate := now in
            let newExpirationDate :=
              if bool_decide (User.planId user = Some planId)
                 && expires_after (User.planExpiresAt user) newExpirationDate
              then new_Date (User.planExpiresAt user)
              else newExpirationDate in
            let newExpirationDate :=
              addDays newExpirationDate (Plan.durationInDays plan) in
            User_update env userId (webhook_grant_values planId newExpirationDate) ;;
            ret (PlanAssigned (Plan.name plan) (User.email user) newExpirationDate)
        end
    end
  end.

(** ** Statements about the service *)

(** The notifications the reconciler has nothing to do for: another topic,
    or a preapproval whose provider record lacks the external reference or
    carries one under which there is no order. *)
Definition ignored (env : Env) (w : World) (n : Notification) : Prop :=
  n_type n <> "preapproval"
  \/ (n_type n = "preapproval"
      /\ exists wd body,
           n_data n = Some wd
           /\ preapproval_get env (wd_id wd) = Returned body
           /\ (Preapproval.external_reference body = None
               \/ exists id, Preapproval.external_reference body = Some id
                             /\ orders w !! id = None)).

(** The message of the poller for an order that is not in the store. *)
Definition msg_no_order : string := "Pedido de assinatura não encontrado.".

(** Two tables that differ in at most one row, which exists in both: the
    second is the first, or the first with one row rewritten in place. *)
Definition rewrites_one_row {A} (m m' : gmap Id A) : Prop :=
  m' = m \/ exists k f, m' = alter f k m.

(** The log of gateway calls grew by at most one call. *)
Definition at_most_one_call (calls calls' : list GatewayCall) : Prop :=
  calls' = calls \/ exists call, calls' = (calls ++ [call])%list.

(** What the [catch] of the webhook does with the error of its [try]. *)
Definition webhook_logged (e : JsError) (w : World) : World :=
  set_console
    (fun c => (c ++ [ConsoleError "Erro ao processar webhook de assinatura:" (Some e)])%list) w.

(** The rule of C3, in the words of the specification: the grant
    extends the current expiration when the user is on the plan being
    granted and that expiration is strictly in the future, and counts from
    now in every other case. *)
Definition grantOrExtend_spec (now : Timestamp) (user : User.t) (planId : Id) (plan : Plan.t)
    : Timestamp :=
  match User.planExpiresAt user with
  | Some currentExpiration =>
      if bool_decide (User.planId user = Some planId) && (now <? currentExpiration)
      then addDays currentExpiration (Plan.durationInDays plan)
      else addDays now (Plan.durationInDays plan)
  | None => addDays now (Plan.durationInDays plan)
  end.

(** ** A small deployment, for the examples *)

Module Scenario.

Definition pro : Plan.t :=
  {| Plan.name := "Pro"; Plan.price := 2990; Plan.durationInDays := 30 |}.

Definition basic : Plan.t :=
  {| Plan.name := "Basic"; Plan.price := 990; Plan.durationInDays := 30 |}.

Definition now : Timestamp := 1000000.

(** Ana has no plan. *)
Definition ana : User.t :=
  {| User.email := "ana@example.com"; User.planId := None; User.planExpiresAt := None;
     User.transcriptionsUsedCount := 4; User.transcriptionMinutesUsed := 50;
     User.agentUsesUsed := 2; User.assistantUsesUsed := 1 |}.

(** Bia is on the Basic plan (key 2), which expires ten days from [now]. *)
Definition bia : User.t :=
  {| User.email := "bia@example.com"; User.planId := Some 2%positive;
     User.planExpiresAt := Some (addDays now 10);
     User.transcriptionsUsedCount := 7; User.transcriptionMinutesUsed := 90;
     User.agentUsesUsed := 3; User.assistantUsesUsed := 5 |}.

(** Caio is on a plan (key 9) that was since deleted. *)
Definition caio : User.t :=
  {| User.email := "caio@example.com"; User.planId := Some 9%positive;
     User.planExpiresAt := Some (addDays now 10);
     User.transcriptionsUsedCount := 0; User.transcriptionMinutesUsed := 0;
     User.agentUsesUsed := 0; User.assistantUsesUsed := 0 |}.

Definition order (userId : Id) (status : OrderStatus) (preferenceId : ProviderId)
    : SubscriptionOrder.t :=
  {| SubscriptionOrder.userId := userId; SubscriptionOrder.planId := 1%positive;
     SubscriptionOrder.totalAmount := 2990; SubscriptionOrder.status := status;
     SubscriptionOrder.mercadopagoPreferenceId := Some preferenceId;
     SubscriptionOrder.mercadopagoPaymentId := None;
     SubscriptionOrder.mercadopagoPaymentDetails := None |}.

(** Order 1 is Ana's and order 2 is Bia's, both pending and both for the Pro
    plan (key 1); order 3 is an approved order of Ana and order 4 a
    cancelled order of Bia. *)
Definition world : World :=
  {| users := <[1%positive := ana]> (<[2%positive := bia]> (<[3%positive := caio]> ∅));
     plans := <[1%positive := pro]> (<[2%positive := basic]> ∅);
     orders := <[1%positive := order 1%positive pending 71%positive]>
                 (<[2%positive := order 2%positive pending 72%positive]>
                    (<[3%positive := order 1%positive approved 73%positive]>
                       (<[4%positive := order 2%positive cancelled 76%positive]> ∅)));
     gatewayCalls := [];
     console := [] |}.

Definition preapproval (id : ProviderId) (status : string) (reference : option Id)
    : Preapproval.t :=
  {| Preapproval.id := id; Preapproval.init_point := "https://mp.example/checkout";
     Preapproval.status := status; Preapproval.external_reference := reference |}.

Definition gateway_down : JsError :=
  {| err_name := "Error"; err_message := "connect ETIMEDOUT";
     err_response_message := None |}.

Definition gateway_refuses : JsError :=
  {| err_name := "Error"; err_message := "Request failed with status code 400";
     err_response_message := Some "Invalid payer_email" |}.

(** The gateway knows the preapprovals 71, 72, 73 and 76 of the four
    orders, all in the given status, a preapproval 74 that carries no
    reference and a preapproval 75 that references an order 50. *)
Definition get (status : string) (id : option ProviderId) : Completion Preapproval.t :=
  match id with
  | Some 71%positive => Returned (preapproval 71%positive status (Some 1%positive))
  | Some 72%positive => Returned (preapproval 72%positive status (Some 2%positive))
  | Some 73%positive => Returned (preapproval 73%positive status (Some 3%positive))
  | Some 74%positive => Returned (preapproval 74%positive status None)
  | Some 75%positive => Returned (preapproval 75%positive status (Some 50%positive))
  | Some 76%positive => Returned (preapproval 76%positive status (Some 4%positive))
  | _ => Threw gateway_down
  end.

Definition env (status : string) : Env :=
  {| isConfigured := true;
     preapproval_get := get status;
     preapproval_create := fun _ => Returned (preapproval 80%positive "pending" (Some 9%positive));
     storeFault := fun _ => None;
     createdOrderId := 9%positive;
     oneYearAfter := fun t => addDays t 365 |}.

Definition env_unconfigured : Env :=
  {| isConfigured := false;
     preapproval_get := fun _ => Threw gateway_down;
     preapproval_create := fun _ => Threw gateway_down;
     storeFault := fun _ => None;
     createdOrderId := 9%positive;
     oneYearAfter := fun t => addDays t 365 |}.

Definition env_create_fails (e : JsError) : Env :=
  {| isConfigured := true;
     preapproval_get := get "pending";
     preapproval_create := fun _ => Threw e;
     storeFault := fun _ => None;
     createdOrderId := 9%positive;
     oneYearAfter := fun t => addDays t 365 |}.

Definition store_down : JsError :=
  {| err_name := "SequelizeConnectionError"; err_message := "connection refused";
     err_response_message := None |}.

Definition env_store_down (status : string) : Env :=
  {| isConfigured := true;
     preapproval_get := get status;
     preapproval_create := fun _ => Threw gateway_down;
     storeFault := fun _ => Some store_down;
     createdOrderId := 9%positive;
     oneYearAfter := fun t => addDays t 365 |}.

Definition notification (id : ProviderId) : option Notification :=
  Some {| n_type := "preapproval"; n_data := Some {| wd_id := Some id |} |}.

End Scenario.

(** The scenario with one more order, under key 5: a checkout of Ana whose
    call to the gateway failed, so that no preapproval id was recorded. *)
Module Scenario_more.

Definition draft : SubscriptionOrder.t :=
  {| SubscriptionOrder.userId := 1%positive;
     SubscriptionOrder.planId := 1%positive;
     SubscriptionOrder.totalAmount := 2990;
     SubscriptionOrder.status := pending;
     SubscriptionOrder.mercadopagoPreferenceId := None;
     SubscriptionOrder.mercadopagoPaymentId := None;
     SubscriptionOrder.mercadopagoPaymentDetails := None |}.

Definition world_with_draft : World :=
  set_orders (insert 5%positive draft) Scenario.world.


End Scenario_more.

(** ** Running the computations *)

(** One step of symbolic execution: the monad, the lifting to the poller's
    local instance and the projections are unfolded and reduced. *)
Ltac run :=
  cbv beta iota zeta delta
    [try_catch bind gets modify ret throw with_instance liftW this_instance set_instance
     mercadopago_preapproval_get mercadopago_preapproval_create console_log console_error
     set_orders set_users set_console set_gatewayCalls];
  cbn [fst snd inst_id inst_row inst_user inst_plan
       users plans orders gatewayCalls console].

(** Unfolding the poller down to the store and the gateway. *)
Ltac open_poller :=
  unfold checkSubscriptionOrderStatus, checkSubscriptionOrderStatus_try,
    SubscriptionOrder_findByPk_include, check_try_gateway, instance_update_order,
    instance_update_user, SubscriptionOrder_update, User_update,
    SubscriptionOrder_findByPk, store.

(** One case distinction of a run: on what the store, the gateway or a test
    of the code answers. *)
Ltac case_step :=
  match goal with
  | |- context [storeFault ?e ?op] => destruct (storeFault e op) eqn:?
  | |- context [load_order ?w ?i] => unfold load_order
  | |- context [match orders ?w !! ?i with _ => _ end] => destruct (orders w !! i) eqn:?
  | |- context [decide ?P] => destruct (decide P)
  | |- context [SubscriptionOrder.mercadopagoPreferenceId ?r] =>
      destruct (SubscriptionOrder.mercadopagoPreferenceId r) eqn:?
  | |- context [preapproval_get ?e ?i] => destruct (preapproval_get e i) eqn:?
  | |- context [preapproval_create ?e ?i] => destruct (preapproval_create e i) eqn:?
  | |- context [match statusAtualizado ?s ?b with _ => _ end] =>
      destruct (statusAtualizado s b) eqn:?
  | |- context [users ?w !! ?i] => destruct (users w !! i) eqn:?
  | |- context [plans ?w !! ?i] => destruct (plans w !! i) eqn:?
  end.

Ltac cases := repeat (case_step; run; cbn [fmap option_fmap option_map present]).

Lemma scenario_env_healthy (status : string) : healthy (Scenario.env status).
Proof. intros op. reflexivity. Qed.

Lemma store_answers {A} (env : Env) (op : StoreOp) (m : M World A) :
  storeFault env op = None -> store env op m = m.
Proof. intros H. unfold store. now rewrite H. Qed.

Lemma store_rejects {A} (env : Env) (op : StoreOp) (m : M World A) (e : JsError) :
  storeFault env op = Some e -> store env op m = throw e.
Proof. intros H. unfold store. now rewrite H. Qed.

Lemma load_order_found (w : World) (id : Id) (row : SubscriptionOrder.t) :
  orders w !! id = Some row ->
  load_order w id =
    Some {| inst_id := id; inst_row := row;
            inst_user := Some (pair (SubscriptionOrder.userId row)
                                 <$> users w !! SubscriptionOrder.userId row);
            inst_plan := Some (pair (SubscriptionOrder.planId row)
                                 <$> plans w !! SubscriptionOrder.planId row) |}.
Proof. intros H. unfold load_order. now rewrite H. Qed.

Lemma load_order_missing (w : World) (id : Id) :
  orders w !! id = None -> load_order w id = None.
Proof. intros H. unfold load_order. now rewrite H. Qed.

(** The three provider statuses that the webhook maps to a terminal status. *)
Lemma newStatus_authorized (body : Preapproval.t) :
  Preapproval.status body = "authorized" -> newStatus body = approved.
Proof. intros H. unfold newStatus. now rewrite H. Qed.

Lemma newStatus_cancelled (body : Preapproval.t) :
  Preapproval.status body = "cancelled" \/ Preapproval.status body = "paused" ->
  newStatus body = cancelled.
Proof. intros [H | H]; unfold newStatus; now rewrite H. Qed.

Lemma newStatus_pending_iff (body : Preapproval.t) :
  newStatus body = pending <->
  Preapproval.status body <> "authorized" /\ Preapproval.status body <> "cancelled"
  /\ Preapproval.status body <> "paused".
Proof.
  unfold newStatus.
  destruct (String.eqb_spec (Preapproval.status body) "authorized") as [Ha | Ha];
  destruct (String.eqb_spec (Preapproval.status body) "cancelled") as [Hc | Hc];
  destruct (String.eqb_spec (Preapproval.status body) "paused") as [Hp | Hp];
  simpl; split; try discriminate; try tauto; intros; repeat split; congruence.
Qed.

(** The webhook on a notification that reaches an order: the gateway is
    asked once, the order row is rewritten, and what is left is the
    entitlement step on the user. *)
Lemma processWebhook_try_reaches_order env now n wd body id row w :
  n_type n = "preapproval" ->
  n_data n = Some wd ->
  preapproval_get env (wd_id wd) = Returned body ->
  Preapproval.external_reference body = Some id ->
  storeFault env OpOrderFindByPk = None ->
  storeFault env OpOrderUpdate = None ->
  orders w !! id = Some row ->
  processWebhook_try env now (Some n) w =
    webhook_entitlement env now (newStatus body)
      (pair (SubscriptionOrder.userId row) <$> users w !! SubscriptionOrder.userId row)
      (pair (SubscriptionOrder.planId row) <$> plans w !! SubscriptionOrder.planId row)
      (set_orders (alter (webhook_order_values (newStatus body) (wd_id wd) body) id)
         (set_gatewayCalls (fun l => (l ++ [PreapprovalGet (wd_id wd)])%list) w)).
Proof.
  intros Ht Hd Hg Hr Hf Hu Ho.
  unfold processWebhook_try. rewrite Ht, Hd. simpl.
  unfold bind at 1. unfold mercadopago_preapproval_get. rewrite Hg, Hr.
  unfold SubscriptionOrder_findByPk_include. rewrite (store_answers _ _ _ Hf).
  unfold bind at 1, gets.
  rewrite (load_order_found _ _ row) by exact Ho.
  unfold SubscriptionOrder_update. rewrite (store_answers _ _ _ Hu).
  unfold bind at 1, modify. simpl.
  destruct (users w !! SubscriptionOrder.userId row) as [u |];
  destruct (plans w !! SubscriptionOrder.planId row) as [p |]; reflexivity.
Qed.

(** ** The webhook reconciler *)

(** On an ignored notification only the gateway log and the console can
    differ afterwards. *)
Lemma processWebhook_ignored env now n w :
  ignored env w n ->
  exists calls lines,
    processWebhook env now (Some n) w =
      ({| users := users w; plans := plans w; orders := orders w;
          gatewayCalls := calls; console := lines |}, Returned tt).
Proof.
  intros [Hother | [Ht (wd & body & Hd & Hg & Href)]];
    unfold processWebhook, try_catch, processWebhook_try.
  - apply String.eqb_neq in Hother. rewrite Hother.
    exists (gatewayCalls w), (console w). now destruct w.
  - rewrite Ht, Hd. simpl.
    unfold bind at 1, mercadopago_preapproval_get. rewrite Hg.
    destruct Href as [Hnone | (id & Hsome & Hmissing)].
    + rewrite Hnone. simpl. eauto.
    + rewrite Hsome. unfold SubscriptionOrder_findByPk_include, store.
      destruct (storeFault env OpOrderFindByPk) as [e |].
      * simpl. eauto.
      * unfold bind, gets. rewrite load_order_missing by exact Hmissing.
        simpl. eauto.
Qed.

(** C8: a notification of another topic, and a preapproval notification
    whose provider record has no external reference or references an order
    that does not exist, leave every user, order and plan record as it was,
    and the webhook returns normally. *)
Theorem C8_ignored_notification_changes_no_record env now n w :
  ignored env w n ->
  users (fst (processWebhook env now (Some n) w)) = users w
  /\ orders (fst (processWebhook env now (Some n) w)) = orders w
  /\ plans (fst (processWebhook env now (Some n) w)) = plans w
  /\ snd (processWebhook env now (Some n) w) = Returned tt.
Proof.
  intros H. destruct (processWebhook_ignored env now n w H) as (calls & lines & ->).
  simpl. auto.
Qed.

(** The theorem at three notifications of the scenario: a payment topic, a
    preapproval made outside the system, and one referencing order 50. *)
Lemma C8_witness :
  (ignored (Scenario.env "authorized") Scenario.world
     {| n_type := "payment"; n_data := Some {| wd_id := Some 71%positive |} |}
   /\ orders (fst (processWebhook (Scenario.env "authorized") Scenario.now
                     (Some {| n_type := "payment";
                              n_data := Some {| wd_id := Some 71%positive |} |})
                     Scenario.world))
      = orders Scenario.world)
  /\ (ignored (Scenario.env "authorized") Scenario.world
        {| n_type := "preapproval"; n_data := Some {| wd_id := Some 75%positive |} |}
      /\ users (fst (processWebhook (Scenario.env "authorized") Scenario.now
                       (Scenario.notification 75%positive) Scenario.world))
         = users Scenario.world).
Proof.
  split.
  - assert (H : ignored (Scenario.env "authorized") Scenario.world
                  {| n_type := "payment"; n_data := Some {| wd_id := Some 71%positive |} |}).
    { left. simpl. discriminate. }
    split; [exact H |].
    exact (proj1 (proj2 (C8_ignored_notification_changes_no_record
                           (Scenario.env "authorized") Scenario.now _ Scenario.world H))).
  - assert (H : ignored (Scenario.env "authorized") Scenario.world
                  {| n_type := "preapproval";
                     n_data := Some {| wd_id := Some 75%positive |} |}).
    { right. split; [reflexivity |].
      exists {| wd_id := Some 75%positive |},
             (Scenario.preapproval 75%positive "authorized" (Some 50%positive)).
      split; [reflexivity |]. split; [reflexivity |].
      right. exists 50%positive. split; reflexivity. }
    split; [exact H |].
    exact (proj1 (C8_ignored_notification_changes_no_record
                    (Scenario.env "authorized") Scenario.now _ Scenario.world H)).
Defined.

(** C9: for every environment, time, request body and store, the webhook
    returns normally.  When its [try] throws (the gateway rejects the fetch,
    the store rejects a call, the body is malformed), the effects made so
    far stay, the error is written to the console and nothing is thrown to
    the caller. *)
Theorem C9_processWebhook_never_throws env now data w :
  snd (processWebhook env now data w) = Returned tt
  /\ processWebhook env now data w =
       match processWebhook_try env now data w with
       | (w1, Returned _) => (w1, Returned tt)
       | (w1, Threw e) => (webhook_logged e w1, Returned tt)
       end.
Proof.
  unfold processWebhook, try_catch.
  destruct (processWebhook_try env now data w) as [w1 [[] | e]]; simpl; auto.
Qed.

(** The three kinds of failure do occur inside the [try], and are swallowed. *)
Lemma webhook_swallows_gateway_error env now n wd e w :
  n_type n = "preapproval" ->
  n_data n = Some wd ->
  preapproval_get env (wd_id wd) = Threw e ->
  processWebhook_try env now (Some n) w
    = (set_gatewayCalls (fun l => (l ++ [PreapprovalGet (wd_id wd)])%list) w, Threw e)
  /\ processWebhook env now (Some n) w
     = (webhook_logged e
          (set_gatewayCalls (fun l => (l ++ [PreapprovalGet (wd_id wd)])%list) w),
        Returned tt).
Proof.
  intros Ht Hd Hg.
  assert (H : processWebhook_try env now (Some n) w
              = (set_gatewayCalls (fun l => (l ++ [PreapprovalGet (wd_id wd)])%list) w,
                 Threw e)).
  { unfold processWebhook_try. rewrite Ht, Hd. simpl.
    unfold bind, mercadopago_preapproval_get. now rewrite Hg. }
  split; [exact H |].
  unfold processWebhook, try_catch. now rewrite H.
Qed.

Lemma webhook_swallows_store_error env now n wd body id e w :
  n_type n = "preapproval" ->
  n_data n = Some wd ->
  preapproval_get env (wd_id wd) = Returned body ->
  Preapproval.external_reference body = Some id ->
  storeFault env OpOrderFindByPk = Some e ->
  processWebhook env now (Some n) w
    = (webhook_logged e
         (set_gatewayCalls (fun l => (l ++ [PreapprovalGet (wd_id wd)])%list) w),
       Returned tt).
Proof.
  intros Ht Hd Hg Hr Hf.
  unfold processWebhook, try_catch, processWebhook_try. rewrite Ht, Hd. simpl.
  unfold bind at 1, mercadopago_preapproval_get. rewrite Hg, Hr.
  unfold SubscriptionOrder_findByPk_include.
  rewrite (store_rejects _ _ _ e) by exact Hf. reflexivity.
Qed.

Lemma webhook_swallows_malformed_body env now w :
  (exists e, processWebhook_try env now None w = (w, Threw e)
             /\ processWebhook env now None w = (webhook_logged e w, Returned tt))
  /\ (exists e, processWebhook_try env now
                  (Some {| n_type := "preapproval"; n_data := None |}) w = (w, Threw e)
                /\ processWebhook env now
                     (Some {| n_type := "preapproval"; n_data := None |}) w
                   = (webhook_logged e w, Returned tt)).
Proof.
  split; eexists; split; reflexivity.
Qed.

(** The store down for a whole request: the gateway has been asked, the
    lookup of the order is rejected, and the webhook still returns. *)
Example webhook_survives_store_outage :
  processWebhook (Scenario.env_store_down "authorized") Scenario.now
    (Scenario.notification 71%positive) Scenario.world
  = (webhook_logged Scenario.store_down
       (set_gatewayCalls (fun l => (l ++ [PreapprovalGet (Some 71%positive)])%list)
          Scenario.world),
     Returned tt).
Proof. reflexivity. Qed.

(** The entitlement step touches the users and the console only, whether
    the store accepts the update of the user or rejects it. *)
Lemma webhook_entitlement_frame env now st user plan w :
  orders (fst (webhook_entitlement env now st user plan w)) = orders w
  /\ plans (fst (webhook_entitlement env now st user plan w)) = plans w
  /\ gatewayCalls (fst (webhook_entitlement env now st user plan w)) = gatewayCalls w.
Proof.
  unfold webhook_entitlement, User_update, store.
  destruct st, user as [[userId user] |], plan as [[planId plan] |];
    destruct (storeFault env OpUserUpdate) as [e |]; simpl; auto.
Qed.

(** The store after the webhook has processed an "authorized" notification
    for an order whose user and plan exist: the order row is rewritten and
    the grant is written to the user, with no regard to the status the order
    had. *)
Lemma processWebhook_authorized env now n wd body id row user plan w :
  n_type n = "preapproval" ->
  n_data n = Some wd ->
  preapproval_get env (wd_id wd) = Returned body ->
  Preapproval.external_reference body = Some id ->
  Preapproval.status body = "authorized" ->
  healthy env ->
  orders w !! id = Some row ->
  users w !! SubscriptionOrder.userId row = Some user ->
  plans w !! SubscriptionOrder.planId row = Some plan ->
  processWebhook env now (Some n) w =
    (set_console (fun c => (c ++ [ConsoleLog "Plano ativado/renovado para o usuário"])%list)
       (set_users
          (alter (webhook_grant_values (SubscriptionOrder.planId row)
                    (newExpirationDate now user plan))
                 (SubscriptionOrder.userId row))
          (set_orders (alter (webhook_order_values approved (wd_id wd) body) id)
             (set_gatewayCalls (fun l => (l ++ [PreapprovalGet (wd_id wd)])%list) w))),
     Returned tt).
Proof.
  intros Ht Hd Hg Hr Hs Hh Ho Hu Hp.
  unfold processWebhook, try_catch.
  rewrite (processWebhook_try_reaches_order env now n wd body id row w)
    by (auto using Hh).
  rewrite newStatus_authorized by exact Hs.
  rewrite Hu, Hp. simpl.
  unfold User_update. rewrite (store_answers _ _ _ (Hh OpUserUpdate)).
  reflexivity.
Qed.

(** C3 fails for a user on another plan: Bia is on Basic until ten days from
    now and her order for Pro (30 days) is authorized.  The specification's
    rule gives now + 30 days; the webhook writes now + 40 days. *)
Lemma C3_counterexample :
  User.planId Scenario.bia = Some 2%positive
  /\ SubscriptionOrder.planId (Scenario.order 2%positive pending 72%positive) = 1%positive
  /\ grantOrExtend_spec Scenario.now Scenario.bia 1%positive Scenario.pro
     = addDays Scenario.now 30
  /\ User.planExpiresAt <$>
       users (fst (processWebhook (Scenario.env "authorized") Scenario.now
                     (Scenario.notification 72%positive) Scenario.world)) !! 2%positive
     = Some (Some (addDays Scenario.now 40))
  /\ User.planExpiresAt <$>
       users (fst (processWebhook (Scenario.env "authorized") Scenario.now
                     (Scenario.notification 72%positive) Scenario.world)) !! 2%positive
     <> Some (Some (grantOrExtend_spec Scenario.now Scenario.bia 1%positive Scenario.pro)).
Proof.
  repeat split; try (vm_compute; reflexivity).
  vm_compute. discriminate.
Qed.

(** C3, amended: when the webhook grants a plan, the new expiration is the
    user's current expiration plus the plan's duration exactly when that
    current expiration exists and is strictly in the future, whichever plan
    the user is on; when it is absent or not in the future, the new
    expiration is now plus the plan's duration. *)
Theorem C3_grant_extends_any_unexpired_plan env now n wd body id row user plan w :
  n_type n = "preapproval" ->
  n_data n = Some wd ->
  preapproval_get env (wd_id wd) = Returned body ->
  Preapproval.external_reference body = Some id ->
  Preapproval.status body = "authorized" ->
  healthy env ->
  orders w !! id = Some row ->
  users w !! SubscriptionOrder.userId row = Some user ->
  plans w !! SubscriptionOrder.planId row = Some plan ->
  exists user',
    users (fst (processWebhook env now (Some n) w)) !! SubscriptionOrder.userId row
      = Some user'
    /\ User.planId user' = Some (SubscriptionOrder.planId row)
    /\ (forall currentExpiration,
          User.planExpiresAt user = Some currentExpiration ->
          now < currentExpiration ->
          User.planExpiresAt user'
            = Some (addDays currentExpiration (Plan.durationInDays plan)))
    /\ (User.planExpiresAt user = None
        \/ (exists currentExpiration,
              User.planExpiresAt user = Some currentExpiration
              /\ currentExpiration <= now) ->
        User.planExpiresAt user' = Some (addDays now (Plan.durationInDays plan))).
Proof.
  intros Ht Hd Hg Hr Hs Hh Ho Hu Hp.
  rewrite (processWebhook_authorized env now n wd body id row user plan w) by assumption.
  simpl. rewrite lookup_alter_eq, Hu. simpl.
  eexists. split; [reflexivity |]. simpl. split; [reflexivity |].
  unfold newExpirationDate. split.
  - intros current Hc Hlt. rewrite Hc.
    apply Z.ltb_lt in Hlt. now rewrite Hlt.
  - intros [Hnone | (current & Hc & Hle)].
    + now rewrite Hnone.
    + rewrite Hc. apply Z.ltb_ge in Hle. now rewrite Hle.
Qed.

(** The amended rule at Bia's order (on Basic until now + 10 days, granted
    Pro: now + 40 days) and at Ana's (no plan: now + 30 days). *)
Lemma C3_witness :
  (exists user',
     users (fst (processWebhook (Scenario.env "authorized") Scenario.now
                   (Scenario.notification 72%positive) Scenario.world)) !! 2%positive
       = Some user'
     /\ User.planExpiresAt user' = Some (addDays (addDays Scenario.now 10) 30))
  /\ (exists user',
        users (fst (processWebhook (Scenario.env "authorized") Scenario.now
                      (Scenario.notification 71%positive) Scenario.world)) !! 1%positive
          = Some user'
        /\ User.planExpiresAt user' = Some (addDays Scenario.now 30)).
Proof.
  split.
  - destruct (C3_grant_extends_any_unexpired_plan
                (Scenario.env "authorized") Scenario.now
                {| n_type := "preapproval"; n_data := Some {| wd_id := Some 72%positive |} |}
                {| wd_id := Some 72%positive |}
                (Scenario.preapproval 72%positive "authorized" (Some 2%positive))
                2%positive (Scenario.order 2%positive pending 72%positive)
                Scenario.bia Scenario.pro Scenario.world
                eq_refl eq_refl eq_refl eq_refl eq_refl
                (scenario_env_healthy "authorized") eq_refl eq_refl eq_refl)
      as (user' & Hlookup & _ & Hextend & _).
    exists user'. split; [exact Hlookup |].
    apply (Hextend (addDays Scenario.now 10)); [reflexivity | reflexivity].
  - destruct (C3_grant_extends_any_unexpired_plan
                (Scenario.env "authorized") Scenario.now
                {| n_type := "preapproval"; n_data := Some {| wd_id := Some 71%positive |} |}
                {| wd_id := Some 71%positive |}
                (Scenario.preapproval 71%positive "authorized" (Some 1%positive))
                1%positive (Scenario.order 1%positive pending 71%positive)
                Scenario.ana Scenario.pro Scenario.world
                eq_refl eq_refl eq_refl eq_refl eq_refl
                (scenario_env_healthy "authorized") eq_refl eq_refl eq_refl)
      as (user' & Hlookup & _ & _ & Hanchor).
    exists user'. split; [exact Hlookup |].
    apply Hanchor. left. reflexivity.
Defined.

(** C4 fails on an approved order: order 3 is approved, the provider
    reports its preapproval as cancelled, and the webhook writes [cancelled]
    to the order. *)
Lemma C4_counterexample :
  SubscriptionOrder.status <$> orders Scenario.world !! 3%positive = Some approved
  /\ SubscriptionOrder.status <$>
       orders (fst (processWebhook (Scenario.env "cancelled") Scenario.now
                      (Scenario.notification 73%positive) Scenario.world)) !! 3%positive
     = Some cancelled.
Proof. split; vm_compute; reflexivity. Qed.

(** C4, amended: for every order whose status is approved or cancelled, a
    processed preapproval notification whose provider status is authorized,
    cancelled or paused leaves the order in the terminal status the
    transition table gives for that provider status (approved for
    authorized, cancelled for cancelled and paused), whatever the order's
    status was, and so never in pending. *)
Theorem C4_terminal_order_follows_provider_status env now n wd body id row w :
  n_type n = "preapproval" ->
  n_data n = Some wd ->
  preapproval_get env (wd_id wd) = Returned body ->
  Preapproval.external_reference body = Some id ->
  storeFault env OpOrderFindByPk = None ->
  storeFault env OpOrderUpdate = None ->
  orders w !! id = Some row ->
  SubscriptionOrder.status row = approved \/ SubscriptionOrder.status row = cancelled ->
  Preapproval.status body = "authorized" \/ Preapproval.status body = "cancelled"
    \/ Preapproval.status body = "paused" ->
  exists row',
    orders (fst (processWebhook env now (Some n) w)) !! id = Some row'
    /\ SubscriptionOrder.status row'
       = (if String.eqb (Preapproval.status body) "authorized" then approved else cancelled)
    /\ SubscriptionOrder.status row' <> pending.
Proof.
  intros Ht Hd Hg Hr Hf Hu Ho _ Hs.
  exists (webhook_order_values (newStatus body) (wd_id wd) body row).
  split.
  - unfold processWebhook, try_catch.
    rewrite (processWebhook_try_reaches_order env now n wd body id row w) by assumption.
    match goal with
    | |- context [webhook_entitlement ?e ?t ?s ?u ?p ?w0] =>
        pose proof (webhook_entitlement_frame e t s u p w0) as (Hframe & _);
        destruct (webhook_entitlement e t s u p w0) as [w1 [[] | err]]
    end; simpl in *; rewrite Hframe, lookup_alter_eq, Ho; reflexivity.
  - simpl. unfold newStatus.
    destruct Hs as [Hs | [Hs | Hs]]; rewrite Hs; simpl; split; (reflexivity || discriminate).
Qed.

(** The amended statement at the approved order 3 with the provider status
    cancelled, and at the same order with the provider status authorized. *)
Lemma C4_witness :
  (exists row',
     orders (fst (processWebhook (Scenario.env "cancelled") Scenario.now
                    (Scenario.notification 73%positive) Scenario.world)) !! 3%positive
       = Some row'
     /\ SubscriptionOrder.status row' = cancelled)
  /\ (exists row',
        orders (fst (processWebhook (Scenario.env "authorized") Scenario.now
                       (Scenario.notification 73%positive) Scenario.world)) !! 3%positive
          = Some row'
        /\ SubscriptionOrder.status row' = approved).
Proof.
  split.
  - destruct (C4_terminal_order_follows_provider_status
                (Scenario.env "cancelled") Scenario.now
                {| n_type := "preapproval"; n_data := Some {| wd_id := Some 73%positive |} |}
                {| wd_id := Some 73%positive |}
                (Scenario.preapproval 73%positive "cancelled" (Some 3%positive))
                3%positive (Scenario.order 1%positive approved 73%positive) Scenario.world
                eq_refl eq_refl eq_refl eq_refl eq_refl eq_refl eq_refl
                (or_introl eq_refl) (or_intror (or_introl eq_refl)))
      as (row' & Hlookup & Hstatus & _).
    exists row'. split; [exact Hlookup | exact Hstatus].
  - destruct (C4_terminal_order_follows_provider_status
                (Scenario.env "authorized") Scenario.now
                {| n_type := "preapproval"; n_data := Some {| wd_id := Some 73%positive |} |}
                {| wd_id := Some 73%positive |}
                (Scenario.preapproval 73%positive "authorized" (Some 3%positive))
                3%positive (Scenario.order 1%positive approved 73%positive) Scenario.world
                eq_refl eq_refl eq_refl eq_refl eq_refl eq_refl eq_refl
                (or_introl eq_refl) (or_introl eq_refl))
      as (row' & Hlookup & Hstatus & _).
    exists row'. split; [exact Hlookup | exact Hstatus].
Defined.

(** The slip left out of the amended C4: the webhook starts from [pending],
    not from the order's status, so a provider status outside the table
    writes [pending] over an approved order. *)
Example webhook_resets_approved_order_to_pending :
  SubscriptionOrder.status <$>
    orders (fst (processWebhook (Scenario.env "pending") Scenario.now
                   (Scenario.notification 73%positive) Scenario.world)) !! 3%positive
  = Some pending.
Proof. vm_compute. reflexivity. Qed.

(** A grant never ends before now plus the plan's duration. *)
Lemma newExpirationDate_lower_bound now user plan :
  addDays now (Plan.durationInDays plan) <= newExpirationDate now user plan.
Proof.
  unfold newExpirationDate, addDays.
  destruct (User.planExpiresAt user) as [current |]; [| lia].
  destruct (Z.ltb_spec now current); lia.
Qed.

(** The webhook does not look at the previous status: delivering the same
    "authorized" notification a second time grants the plan a second time,
    on top of the expiration the first delivery wrote. *)
Lemma webhook_redelivery_extends_again env now n wd body id row user plan w :
  n_type n = "preapproval" ->
  n_data n = Some wd ->
  preapproval_get env (wd_id wd) = Returned body ->
  Preapproval.external_reference body = Some id ->
  Preapproval.status body = "authorized" ->
  healthy env ->
  orders w !! id = Some row ->
  users w !! SubscriptionOrder.userId row = Some user ->
  plans w !! SubscriptionOrder.planId row = Some plan ->
  0 < Plan.durationInDays plan ->
  exists user1 user2,
    users (fst (processWebhook env now (Some n) w)) !! SubscriptionOrder.userId row
      = Some user1
    /\ users (fst (processWebhook env now (Some n)
                     (fst (processWebhook env now (Some n) w))))
         !! SubscriptionOrder.userId row
       = Some user2
    /\ User.planExpiresAt user1 = Some (newExpirationDate now user plan)
    /\ User.planExpiresAt user2
       = Some (addDays (newExpirationDate now user plan) (Plan.durationInDays plan)).
Proof.
  intros Ht Hd Hg Hr Hs Hh Ho Hu Hp Hpos.
  rewrite (processWebhook_authorized env now n wd body id row user plan w) by assumption.
  set (user1 := webhook_grant_values (SubscriptionOrder.planId row)
                  (newExpirationDate now user plan) user).
  set (row1 := webhook_order_values approved (wd_id wd) body row).
  cbn [fst].
  match goal with
  | |- context [processWebhook env now (Some n) ?w1] =>
      rewrite (processWebhook_authorized env now n wd body id row1 user1 plan w1);
      try assumption
  end.
  - exists user1. eexists. simpl.
    rewrite !lookup_alter_eq, Hu. simpl.
    split; [reflexivity |]. split; [reflexivity |]. split; [reflexivity |].
    simpl. f_equal. unfold newExpirationDate at 1. simpl.
    pose proof (newExpirationDate_lower_bound now user plan) as Hlow.
    unfold addDays, msPerDay in Hlow.
    destruct (Z.ltb_spec now (newExpirationDate now user plan)) as [_ | Hge];
      [reflexivity | lia].
  - simpl. now rewrite lookup_alter_eq, Ho.
  - simpl. now rewrite lookup_alter_eq, Hu.
Qed.

(** C1 on the code: Ana has no plan and her pending order 1 is for the
    30-day Pro plan.  The first delivery of the "authorized" notification
    approves the order and sets the expiration to now + 30 days; the second
    delivery of the same notification finds the order already approved and
    still moves the expiration to now + 60 days. *)
Theorem C1_duplicate_authorized_notification_extends_twice :
  SubscriptionOrder.status <$> orders Scenario.world !! 1%positive = Some pending
  /\ User.planExpiresAt <$> users Scenario.world !! 1%positive = Some None
  /\ SubscriptionOrder.status <$>
       orders (fst (processWebhook (Scenario.env "authorized") Scenario.now
                      (Scenario.notification 71%positive) Scenario.world)) !! 1%positive
     = Some approved
  /\ User.planExpiresAt <$>
       users (fst (processWebhook (Scenario.env "authorized") Scenario.now
                     (Scenario.notification 71%positive) Scenario.world)) !! 1%positive
     = Some (Some (addDays Scenario.now 30))
  /\ User.planExpiresAt <$>
       users (fst (processWebhook (Scenario.env "authorized") Scenario.now
                     (Scenario.notification 71%positive)
                     (fst (processWebhook (Scenario.env "authorized") Scenario.now
                             (Scenario.notification 71%positive) Scenario.world))))
         !! 1%positive
     = Some (Some (addDays Scenario.now 60)).
Proof. repeat split; vm_compute; reflexivity. Qed.

(** ** The status poller *)

(** C7: for every order whose status is approved, the poller returns the
    order as it is stored, with the store, the console and the log of
    gateway calls exactly as they were: no call to the gateway is made. *)
Theorem C7_poll_of_approved_order_calls_no_gateway env now id row w :
  storeFault env OpOrderFindByPk = None ->
  orders w !! id = Some row ->
  SubscriptionOrder.status row = approved ->
  exists subscriptionOrder,
    checkSubscriptionOrderStatus env now id w = (w, Returned (Some subscriptionOrder))
    /\ inst_id subscriptionOrder = id
    /\ inst_row subscriptionOrder = row
    /\ gatewayCalls (fst (checkSubscriptionOrderStatus env now id w)) = gatewayCalls w
    /\ orders (fst (checkSubscriptionOrderStatus env now id w)) !! id = Some row.
Proof.
  intros Hf Ho Hs.
  assert (H : checkSubscriptionOrderStatus env now id w = (w, Returned (load_order w id))).
  { unfold checkSubscriptionOrderStatus, try_catch, checkSubscriptionOrderStatus_try.
    unfold SubscriptionOrder_findByPk_include. rewrite (store_answers _ _ _ Hf).
    unfold bind, gets. rewrite (load_order_found _ _ row) by exact Ho.
    simpl. rewrite Hs. reflexivity. }
  rewrite H, (load_order_found _ _ row) by exact Ho.
  eexists. split; [reflexivity |]. simpl. auto.
Qed.

(** The theorem at the approved order 3 of the scenario. *)
Lemma C7_witness :
  exists subscriptionOrder,
    checkSubscriptionOrderStatus (Scenario.env "cancelled") Scenario.now 3%positive
      Scenario.world
    = (Scenario.world, Returned (Some subscriptionOrder))
    /\ inst_row subscriptionOrder = Scenario.order 1%positive approved 73%positive.
Proof.
  destruct (C7_poll_of_approved_order_calls_no_gateway
              (Scenario.env "cancelled") Scenario.now 3%positive
              (Scenario.order 1%positive approved 73%positive) Scenario.world
              eq_refl eq_refl eq_refl)
    as (subscriptionOrder & Hrun & _ & Hrow & _).
  exists subscriptionOrder. split; [exact Hrun | exact Hrow].
Defined.

Lemma statusAtualizado_cancelled status body :
  Preapproval.status body = "cancelled" \/ Preapproval.status body = "paused" ->
  statusAtualizado status body = cancelled.
Proof. intros [H | H]; unfold statusAtualizado; now rewrite H. Qed.

(** The poller on a pending order whose preapproval the provider reports as
    cancelled or paused: one call to the gateway, the order row rewritten,
    the order read again and returned.  No user is written. *)
Lemma checkSubscriptionOrderStatus_cancelled env now id row preferenceId body w :
  healthy env ->
  orders w !! id = Some row ->
  SubscriptionOrder.status row = pending ->
  SubscriptionOrder.mercadopagoPreferenceId row = Some preferenceId ->
  preapproval_get env (Some preferenceId) = Returned body ->
  Preapproval.status body = "cancelled" \/ Preapproval.status body = "paused" ->
  checkSubscriptionOrderStatus env now id w =
    (set_orders (alter (poll_order_values cancelled body) id)
       (set_gatewayCalls (fun l => (l ++ [PreapprovalGet (Some preferenceId)])%list) w),
     Returned (Some {| inst_id := id; inst_row := poll_order_values cancelled body row;
                       inst_user := None; inst_plan := None |})).
Proof.
  intros Hh Ho Hs Hpref Hg Hst.
  unfold checkSubscriptionOrderStatus, checkSubscriptionOrderStatus_try,
    SubscriptionOrder_findByPk_include, check_try_gateway, instance_update_order,
    SubscriptionOrder_update, SubscriptionOrder_findByPk, store.
  rewrite !Hh. run.
  rewrite (load_order_found _ _ row) by exact Ho. run.
  rewrite Hs, Hpref, Hg.
  rewrite (decide_False (P := pending = approved)) by discriminate. run.
  rewrite ?Hs, (statusAtualizado_cancelled pending body Hst).
  rewrite (decide_True (P := cancelled <> pending)) by discriminate. run.
  rewrite lookup_alter_eq, Ho. reflexivity.
Qed.

(** The poller has no entitlement step for a cancellation: whatever the
    order and its user, the users are as they were. *)
Lemma poll_cancelled_writes_no_user env now id row preferenceId body w :
  healthy env ->
  orders w !! id = Some row ->
  SubscriptionOrder.status row = pending ->
  SubscriptionOrder.mercadopagoPreferenceId row = Some preferenceId ->
  preapproval_get env (Some preferenceId) = Returned body ->
  Preapproval.status body = "cancelled" \/ Preapproval.status body = "paused" ->
  users (fst (checkSubscriptionOrderStatus env now id w)) = users w
  /\ SubscriptionOrder.status <$> orders (fst (checkSubscriptionOrderStatus env now id w)) !! id
     = Some cancelled.
Proof.
  intros Hh Ho Hs Hpref Hg Hst.
  rewrite (checkSubscriptionOrderStatus_cancelled env now id row preferenceId body w)
    by assumption.
  run. split; [reflexivity |]. now rewrite lookup_alter_eq, Ho.
Qed.

Lemma statusAtualizado_authorized status body :
  Preapproval.status body = "authorized" -> statusAtualizado status body = approved.
Proof. intros H. unfold statusAtualizado. now rewrite H. Qed.

(** The poller on a pending order whose preapproval the provider reports as
    authorized, with the user and the plan of the order in the store: the
    order is approved and the user gets the plan with the same expiration
    as the webhook computes; the usage counters are not written. *)
Lemma checkSubscriptionOrderStatus_authorized env now id row preferenceId body user plan w :
  healthy env ->
  orders w !! id = Some row ->
  SubscriptionOrder.status row = pending ->
  SubscriptionOrder.mercadopagoPreferenceId row = Some preferenceId ->
  preapproval_get env (Some preferenceId) = Returned body ->
  Preapproval.status body = "authorized" ->
  users w !! SubscriptionOrder.userId row = Some user ->
  plans w !! SubscriptionOrder.planId row = Some plan ->
  fst (checkSubscriptionOrderStatus env now id w) =
    set_console
      (fun c => (c ++ [ConsoleLog
                         "Plano ativado/estendido para o usuário via verificação de status."])%list)
      (set_users
         (alter (poll_grant_values (SubscriptionOrder.planId row)
                   (newExpirationDate now user plan))
                (SubscriptionOrder.userId row))
         (set_orders (alter (poll_order_values approved body) id)
            (set_gatewayCalls (fun l => (l ++ [PreapprovalGet (Some preferenceId)])%list) w))).
Proof.
  intros Hh Ho Hs Hpref Hg Hst Hu Hp.
  unfold checkSubscriptionOrderStatus, checkSubscriptionOrderStatus_try,
    SubscriptionOrder_findByPk_include, check_try_gateway, instance_update_order,
    instance_update_user, SubscriptionOrder_update, User_update,
    SubscriptionOrder_findByPk, store.
  rewrite !Hh. run.
  rewrite (load_order_found _ _ row) by exact Ho. run.
  rewrite Hs, Hpref, Hg, Hu, Hp.
  rewrite (decide_False (P := pending = approved)) by discriminate. run.
  rewrite ?Hs, (statusAtualizado_authorized pending body Hst).
  rewrite (decide_True (P := approved <> pending)) by discriminate.
  cbn [fmap option_fmap option_map present]. run.
  reflexivity.
Qed.

(** C5 on the code: Bia is on the Basic plan until ten days from now and her
    order 2 is pending with the preapproval 72 recorded.  The provider
    reports the preapproval as cancelled and the poller runs: the order
    becomes cancelled, and Bia's row is untouched, so her [planId] is still
    the Basic plan and her [planExpiresAt] still ten days ahead, where the
    specification has null and now. *)
Theorem C5_poll_cancelled_keeps_entitlement :
  orders Scenario.world !! 2%positive = Some (Scenario.order 2%positive pending 72%positive)
  /\ SubscriptionOrder.status <$>
       orders (fst (checkSubscriptionOrderStatus (Scenario.env "cancelled") Scenario.now
                      2%positive Scenario.world)) !! 2%positive
     = Some cancelled
  /\ users (fst (checkSubscriptionOrderStatus (Scenario.env "cancelled") Scenario.now
                   2%positive Scenario.world)) !! 2%positive
     = Some Scenario.bia
  /\ User.planId Scenario.bia = Some 2%positive
  /\ User.planExpiresAt Scenario.bia = Some (addDays Scenario.now 10)
  /\ User.planExpiresAt Scenario.bia <> Some Scenario.now.
Proof.
  repeat split; try (vm_compute; reflexivity).
  vm_compute. discriminate.
Qed.

(** C2 on the code, at three inputs of the scenario.
    - Bia's pending order 2, provider status cancelled: the webhook takes
      Bia's plan and expires it now, the poller leaves Bia as she was.
    - Ana's pending order 1, provider status authorized: both write the same
      plan and expiration, the webhook resets the usage counters and the
      poller keeps them.
    - Bia's cancelled order 4, provider status pending: the webhook writes
      pending to the order, the poller keeps it cancelled. *)
Theorem C2_poller_and_webhook_diverge :
  (users (fst (processWebhook (Scenario.env "cancelled") Scenario.now
                 (Scenario.notification 72%positive) Scenario.world)) !! 2%positive
   = Some (remove_plan_values (Some Scenario.now) Scenario.bia)
   /\ users (fst (checkSubscriptionOrderStatus (Scenario.env "cancelled") Scenario.now
                    2%positive Scenario.world)) !! 2%positive
      = Some Scenario.bia
   /\ remove_plan_values (Some Scenario.now) Scenario.bia <> Scenario.bia)
  /\ (users (fst (processWebhook (Scenario.env "authorized") Scenario.now
                    (Scenario.notification 71%positive) Scenario.world)) !! 1%positive
      = Some (webhook_grant_values 1%positive (addDays Scenario.now 30) Scenario.ana)
      /\ users (fst (checkSubscriptionOrderStatus (Scenario.env "authorized") Scenario.now
                       1%positive Scenario.world)) !! 1%positive
         = Some (poll_grant_values 1%positive (addDays Scenario.now 30) Scenario.ana)
      /\ User.transcriptionsUsedCount
           (webhook_grant_values 1%positive (addDays Scenario.now 30) Scenario.ana) = 0
      /\ User.transcriptionsUsedCount
           (poll_grant_values 1%positive (addDays Scenario.now 30) Scenario.ana) = 4)
  /\ (SubscriptionOrder.status <$>
        orders (fst (processWebhook (Scenario.env "pending") Scenario.now
                       (Scenario.notification 76%positive) Scenario.world)) !! 4%positive
      = Some pending
      /\ SubscriptionOrder.status <$>
           orders (fst (checkSubscriptionOrderStatus (Scenario.env "pending") Scenario.now
                          4%positive Scenario.world)) !! 4%positive
         = Some cancelled).
Proof.
  repeat split; try (vm_compute; reflexivity).
  vm_compute. discriminate.
Qed.

(** ** Checkout *)

(** C6 fails on the error classes: with the gateway not configured, what
    checkout creation throws is an instance of [Error] itself, built by
    [new Error(...)], and not of a class ServiceUnavailableError. *)
Lemma C6_counterexample :
  exists e,
    snd (createCheckoutForPlan Scenario.env_unconfigured Scenario.now 1%positive 1%positive
           Scenario.world) = Threw e
    /\ err_name e = "Error"
    /\ err_name e <> "ServiceUnavailableError".
Proof.
  eexists. split; [vm_compute; reflexivity |].
  split; [reflexivity | discriminate].
Qed.

Lemma createCheckoutForPlan_configured env now userId planId w :
  isConfigured env = true ->
  createCheckoutForPlan env now userId planId w =
    try_catch (createCheckoutForPlan_try env now userId planId)
      (fun error =>
         console_error "Erro ao criar checkout de assinatura:" (Some error) ;;
         throw (new_Error (checkout_error_message error))) w.
Proof. intros H. unfold createCheckoutForPlan. now rewrite H. Qed.

(** C6, amended: checkout creation throws a plain [Error] in each of the
    three cases, and the cases are told apart by the message only.
    - Gateway not configured: the message is the fixed "service not
      available" one, and neither the store nor the gateway is touched.
    - User or plan missing: an [Error] is thrown, no order is created and no
      gateway call is made.
    - Gateway call rejected: the message is the provider's response message
      when there is a non-empty one and the fixed "communication" message
      otherwise; the order created before the call stays, pending.
    The "not available" and the "communication" messages differ. *)
Theorem C6_checkout_failures env now userId planId w :
  (isConfigured env = false ->
   snd (createCheckoutForPlan env now userId planId w) = Threw (new_Error msg_unavailable)
   /\ orders (fst (createCheckoutForPlan env now userId planId w)) = orders w
   /\ gatewayCalls (fst (createCheckoutForPlan env now userId planId w)) = gatewayCalls w)
  /\ (isConfigured env = true ->
      healthy env ->
      users w !! userId = None \/ plans w !! planId = None ->
      (exists message,
         snd (createCheckoutForPlan env now userId planId w) = Threw (new_Error message))
      /\ orders (fst (createCheckoutForPlan env now userId planId w)) = orders w
      /\ gatewayCalls (fst (createCheckoutForPlan env now userId planId w)) = gatewayCalls w)
  /\ (forall user plan e,
        isConfigured env = true ->
        healthy env ->
        users w !! userId = Some user ->
        plans w !! planId = Some plan ->
        orders w !! createdOrderId env = None ->
        preapproval_create env (subscriptionPayload env now (createdOrderId env) user plan)
          = Threw e ->
        snd (createCheckoutForPlan env now userId planId w)
          = Threw (new_Error (checkout_error_message e))
        /\ (forall message,
              err_response_message e = Some message -> message <> "" ->
              checkout_error_message e = message)
        /\ (err_response_message e = None \/ err_response_message e = Some "" ->
            checkout_error_message e = msg_gateway)
        /\ SubscriptionOrder.status <$>
             orders (fst (createCheckoutForPlan env now userId planId w)) !! createdOrderId env
           = Some pending)
  /\ msg_unavailable <> msg_gateway.
Proof.
  split; [| split; [| split]].
  - intros Hc. unfold createCheckoutForPlan. rewrite Hc. simpl. auto.
  - intros Hc Hh Hmissing.
    rewrite createCheckoutForPlan_configured by exact Hc.
    unfold createCheckoutForPlan_try, User_findByPk, Plan_findByPk, store.
    rewrite !Hh. run.
    destruct (users w !! userId) as [user |] eqn:Hu;
      destruct (plans w !! planId) as [plan |] eqn:Hp;
      try (destruct Hmissing; discriminate); simpl; eauto.
  - intros user plan e Hc Hh Hu Hp Hfree Hg.
    rewrite createCheckoutForPlan_configured by exact Hc.
    unfold createCheckoutForPlan_try, User_findByPk, Plan_findByPk,
      SubscriptionOrder_create, store.
    rewrite !Hh. run. rewrite Hu, Hp. simpl. run. rewrite Hfree. run. rewrite Hg. run.
    split; [reflexivity |]. split; [| split].
    + intros message Hm Hne. unfold checkout_error_message. rewrite Hm.
      apply String.eqb_neq in Hne. now rewrite Hne.
    + intros [Hm | Hm]; unfold checkout_error_message; now rewrite Hm.
    + now rewrite lookup_insert_eq.
  - discriminate.
Qed.

(** The amended statement at the scenario: the gateway not configured, a
    user 50 that does not exist, and a gateway that refuses the payload with
    the message "Invalid payer_email". *)
Lemma C6_witness :
  snd (createCheckoutForPlan Scenario.env_unconfigured Scenario.now 1%positive 1%positive
         Scenario.world) = Threw (new_Error msg_unavailable)
  /\ orders (fst (createCheckoutForPlan (Scenario.env "pending") Scenario.now 50%positive
                    1%positive Scenario.world)) = orders Scenario.world
  /\ snd (createCheckoutForPlan (Scenario.env_create_fails Scenario.gateway_refuses)
            Scenario.now 1%positive 1%positive Scenario.world)
     = Threw (new_Error "Invalid payer_email").
Proof.
  split; [| split].
  - exact (proj1 (proj1 (C6_checkout_failures Scenario.env_unconfigured Scenario.now
                           1%positive 1%positive Scenario.world) eq_refl)).
  - exact (proj1 (proj2 (proj1 (proj2 (C6_checkout_failures (Scenario.env "pending")
                                         Scenario.now 50%positive 1%positive
                                         Scenario.world))
                           eq_refl (scenario_env_healthy "pending")
                           (or_introl eq_refl)))).
  - exact (proj1 (proj1 (proj2 (proj2 (C6_checkout_failures
                                         (Scenario.env_create_fails Scenario.gateway_refuses)
                                         Scenario.now 1%positive 1%positive Scenario.world)))
                    Scenario.ana Scenario.pro Scenario.gateway_refuses
                    eq_refl (fun op => eq_refl) eq_refl eq_refl eq_refl eq_refl)).
Defined.

(** The slip left out of the amended C6: the two "not found" errors are
    thrown inside the [try], so the [catch] of line 96 replaces them, and the
    caller gets the very error of a gateway that failed without a message. *)
Example checkout_not_found_is_masked :
  snd (createCheckoutForPlan (Scenario.env "pending") Scenario.now 50%positive 1%positive
         Scenario.world) = Threw (new_Error msg_gateway)
  /\ snd (createCheckoutForPlan (Scenario.env "pending") Scenario.now 1%positive 50%positive
            Scenario.world) = Threw (new_Error msg_gateway)
  /\ snd (createCheckoutForPlan (Scenario.env_create_fails Scenario.gateway_down)
            Scenario.now 1%positive 1%positive Scenario.world)
     = Threw (new_Error msg_gateway).
Proof. repeat split; vm_compute; reflexivity. Qed.

(** A checkout that goes through: the order is created pending, the gateway
    is called once, and the provider's identifier is recorded on the order. *)
Example checkout_succeeds :
  snd (createCheckoutForPlan (Scenario.env "pending") Scenario.now 1%positive 1%positive
         Scenario.world)
  = Returned {| checkoutUrl := "https://mp.example/checkout"; preapprovalId := 80%positive |}
  /\ orders (fst (createCheckoutForPlan (Scenario.env "pending") Scenario.now 1%positive
                    1%positive Scenario.world)) !! 9%positive
     = Some {| SubscriptionOrder.userId := 1%positive;
               SubscriptionOrder.planId := 1%positive;
               SubscriptionOrder.totalAmount := 2990;
               SubscriptionOrder.status := pending;
               SubscriptionOrder.mercadopagoPreferenceId := Some 80%positive;
               SubscriptionOrder.mercadopagoPaymentId := None;
               SubscriptionOrder.mercadopagoPaymentDetails := None |}.
Proof. split; vm_compute; reflexivity. Qed.

(** ** The active plan of a user *)

(** C10: for every stored user whose [planId] is not null and whose
    entitlement is not active (no expiration, an expiration that is not in
    the future, or no plan row under that [planId]), [getUserActivePlan]
    returns null and writes the user back with [planId] null and
    [planExpiresAt] null; every other column and every other row is as it
    was. *)
Theorem C10_getUserActivePlan_clears_stale_plan env now userId user planId w :
  storeFault env OpUserFindByPk = None ->
  storeFault env OpUserUpdate = None ->
  users w !! userId = Some user ->
  User.planId user = Some planId ->
  User.planExpiresAt user = None
    \/ (exists planExpiresAt, User.planExpiresAt user = Some planExpiresAt
                              /\ planExpiresAt <= now)
    \/ plans w !! planId = None ->
  getUserActivePlan env now userId w
    = (set_users (insert userId (remove_plan_values None user)) w, Returned None)
  /\ User.planId (remove_plan_values None user) = None
  /\ User.planExpiresAt (remove_plan_values None user) = None.
Proof.
  intros Hf Hu Hlookup Hplan Hstale.
  split; [| split; reflexivity].
  unfold getUserActivePlan, getUserActivePlan_try, User_findByPk_include, User_update, store.
  rewrite Hf, Hu. run. rewrite Hlookup. cbn [fmap option_fmap option_map]. rewrite Hplan.
  assert (Hwrite : forall m : gmap Id User.t,
            m !! userId = Some user ->
            alter (remove_plan_values None) userId m
              = <[userId := remove_plan_values None user]> m).
  { intros m Hm. apply map_eq. intros k. destruct (decide (k = userId)) as [-> | Hne].
    - now rewrite lookup_alter_eq, lookup_insert_eq, Hm.
    - now rewrite lookup_alter_ne, lookup_insert_ne by congruence. }
  destruct (plans w !! planId) as [currentPlan |] eqn:Hp;
    destruct (User.planExpiresAt user) as [planExpiresAt |] eqn:He;
    cbn [fmap option_fmap option_map];
    try (destruct (Z.ltb_spec now planExpiresAt) as [Hlt | Hge]);
    run; rewrite ?Hwrite by exact Hlookup; try reflexivity.
  exfalso. destruct Hstale as [Hnone | [(t & Ht & Hle) | Hnoplan]];
    [discriminate | injection Ht as <-; lia | discriminate].
Qed.

(** The theorem at Bia once her plan has run out, and at Caio, whose plan
    row is gone. *)
Lemma C10_witness :
  getUserActivePlan (Scenario.env "pending") (addDays Scenario.now 10) 2%positive
    Scenario.world
  = (set_users (insert 2%positive (remove_plan_values None Scenario.bia)) Scenario.world,
     Returned None)
  /\ getUserActivePlan (Scenario.env "pending") Scenario.now 3%positive Scenario.world
     = (set_users (insert 3%positive (remove_plan_values None Scenario.caio)) Scenario.world,
        Returned None).
Proof.
  split.
  - refine (proj1 (C10_getUserActivePlan_clears_stale_plan
                     (Scenario.env "pending") (addDays Scenario.now 10) 2%positive
                     Scenario.bia 2%positive Scenario.world
                     eq_refl eq_refl eq_refl eq_refl _)).
    right. left. exists (addDays Scenario.now 10). split; [reflexivity |].
    vm_compute. discriminate.
  - refine (proj1 (C10_getUserActivePlan_clears_stale_plan
                     (Scenario.env "pending") Scenario.now 3%positive
                     Scenario.caio 9%positive Scenario.world
                     eq_refl eq_refl eq_refl eq_refl _)).
    right. right. reflexivity.
Defined.

(** A user whose plan is active is read without any write. *)
Example getUserActivePlan_active :
  getUserActivePlan (Scenario.env "pending") Scenario.now 2%positive Scenario.world
  = (Scenario.world,
     Returned (Some {| plan := (2%positive, Scenario.basic);
                       expiresAt := addDays Scenario.now 10;
                       remainingDays := 10 |})).
Proof. vm_compute. reflexivity. Qed.

(** ** What the webhook can and cannot change *)

Lemma rewrites_one_row_refl {A} (m : gmap Id A) : rewrites_one_row m m.
Proof. now left. Qed.

Lemma rewrites_one_row_alter {A} (m : gmap Id A) (k : Id) (f : A -> A) :
  rewrites_one_row m (alter f k m).
Proof. right. eauto. Qed.

Lemma rewrites_one_row_dom {A} (m m' : gmap Id A) :
  rewrites_one_row m m' -> dom m' = dom m.
Proof.
  intros [-> | (k & f & ->)]; [reflexivity |].
  apply set_eq. intros j. rewrite !elem_of_dom.
  destruct (decide (k = j)) as [-> | Hne].
  - rewrite lookup_alter_eq. destruct (m !! j); simpl; split; intros [x Hx]; eauto.
  - now rewrite lookup_alter_ne.
Qed.

Lemma rewrites_one_row_elsewhere {A} (m m' : gmap Id A) :
  rewrites_one_row m m' -> exists k, forall j, j <> k -> m' !! j = m !! j.
Proof.
  intros [-> | (k & f & ->)].
  - exists 1%positive. reflexivity.
  - exists k. intros j Hne. now rewrite lookup_alter_ne.
Qed.

Lemma webhook_entitlement_users env now st user plan w :
  rewrites_one_row (users w) (users (fst (webhook_entitlement env now st user plan w))).
Proof.
  unfold webhook_entitlement, User_update, store.
  destruct st, user as [[userId user] |], plan as [[planId plan] |];
    destruct (storeFault env OpUserUpdate) as [e |]; simpl;
    first [apply rewrites_one_row_refl | apply rewrites_one_row_alter].
Qed.

(** The shape of every run of the webhook. *)
Lemma processWebhook_shape env now data w :
  plans (fst (processWebhook env now data w)) = plans w
  /\ rewrites_one_row (orders w) (orders (fst (processWebhook env now data w)))
  /\ rewrites_one_row (users w) (users (fst (processWebhook env now data w)))
  /\ at_most_one_call (gatewayCalls w) (gatewayCalls (fst (processWebhook env now data w))).
Proof.
  assert (Hcatch : forall (r : World * Completion unit) w0,
            plans (fst r) = plans w0 ->
            rewrites_one_row (orders w0) (orders (fst r)) ->
            rewrites_one_row (users w0) (users (fst r)) ->
            at_most_one_call (gatewayCalls w0) (gatewayCalls (fst r)) ->
            let r' := match r with
                      | (s', Returned a) => (s', Returned a)
                      | (s', Threw e) =>
                          console_error "Erro ao processar webhook de assinatura:" (Some e) s'
                      end in
            plans (fst r') = plans w0
            /\ rewrites_one_row (orders w0) (orders (fst r'))
            /\ rewrites_one_row (users w0) (users (fst r'))
            /\ at_most_one_call (gatewayCalls w0) (gatewayCalls (fst r'))).
  { intros [s' [a | e]] w0 Hp Ho Hu Hg; simpl in *; auto. }
  unfold processWebhook, try_catch. apply Hcatch.
  all: unfold processWebhook_try.
  all: destruct data as [n |];
         [| simpl; first [reflexivity | apply rewrites_one_row_refl | now left]].
  all: destruct (String.eqb (n_type n) "preapproval");
         [| simpl; first [reflexivity | apply rewrites_one_row_refl | now left]].
  all: destruct (n_data n) as [wd |];
         [| simpl; first [reflexivity | apply rewrites_one_row_refl | now left]].
  all: unfold bind at 1, mercadopago_preapproval_get.
  all: destruct (preapproval_get env (wd_id wd)) as [body | e];
         [| simpl; first [reflexivity | apply rewrites_one_row_refl
                          | right; eexists; reflexivity]].
  all: destruct (Preapproval.external_reference body) as [id |];
         [| simpl; first [reflexivity | apply rewrites_one_row_refl
                          | right; eexists; reflexivity]].
  all: unfold SubscriptionOrder_findByPk_include, SubscriptionOrder_update, store.
  all: destruct (storeFault env OpOrderFindByPk) as [e |];
         [simpl; first [reflexivity | apply rewrites_one_row_refl
                        | right; eexists; reflexivity] |].
  all: unfold bind at 1, gets, load_order; cbn [fst snd orders set_gatewayCalls].
  all: destruct (orders w !! id) as [row |];
         [| simpl; first [reflexivity | apply rewrites_one_row_refl
                          | right; eexists; reflexivity]].
  all: destruct (storeFault env OpOrderUpdate) as [e |];
         [simpl; first [reflexivity | apply rewrites_one_row_refl
                        | right; eexists; reflexivity] |].
  all: unfold bind at 1, modify; cbn [inst_id inst_user inst_plan].
  all: match goal with
       | |- context [webhook_entitlement ?e ?t ?s ?u ?p ?w0] =>
           pose proof (webhook_entitlement_frame e t s u p w0) as (Hfo & Hfp & Hfg);
           pose proof (webhook_entitlement_users e t s u p w0) as Hfu
       end.
  - rewrite Hfp. reflexivity.
  - rewrite Hfo. apply rewrites_one_row_alter.
  - exact Hfu.
  - rewrite Hfg. right. eexists. reflexivity.
Qed.

(** X1: whatever the request body, the gateway and the store do, the
    webhook creates no row and deletes none, and never writes a plan: the
    plans and the key sets of the users and of the orders are as before. *)
Theorem webhook_creates_and_deletes_nothing env now data w :
  plans (fst (processWebhook env now data w)) = plans w
  /\ dom (users (fst (processWebhook env now data w))) = dom (users w)
  /\ dom (orders (fst (processWebhook env now data w))) = dom (orders w).
Proof.
  destruct (processWebhook_shape env now data w) as (Hp & Ho & Hu & _).
  split; [exact Hp |]. split; now apply rewrites_one_row_dom.
Qed.

(** X2: one run of the webhook changes at most one order row and at most
    one user row, and calls the gateway at most once. *)
Theorem webhook_touches_one_order_one_user env now data w :
  (exists id, forall j, j <> id ->
     orders (fst (processWebhook env now data w)) !! j = orders w !! j)
  /\ (exists userId, forall j, j <> userId ->
        users (fst (processWebhook env now data w)) !! j = users w !! j)
  /\ at_most_one_call (gatewayCalls w) (gatewayCalls (fst (processWebhook env now data w))).
Proof.
  destruct (processWebhook_shape env now data w) as (_ & Ho & Hu & Hg).
  split; [now apply rewrites_one_row_elsewhere |].
  split; [now apply rewrites_one_row_elsewhere | exact Hg].
Qed.

(** The store after the webhook has processed a "cancelled" or "paused"
    notification for an order whose user exists. *)
Lemma processWebhook_cancelled env now n wd body id row user w :
  n_type n = "preapproval" ->
  n_data n = Some wd ->
  preapproval_get env (wd_id wd) = Returned body ->
  Preapproval.external_reference body = Some id ->
  Preapproval.status body = "cancelled" \/ Preapproval.status body = "paused" ->
  healthy env ->
  orders w !! id = Some row ->
  users w !! SubscriptionOrder.userId row = Some user ->
  processWebhook env now (Some n) w =
    (set_console
       (fun c => (c ++ [ConsoleLog "Assinatura do usuário foi cancelada. Plano removido."])%list)
       (set_users
          (alter (remove_plan_values (Some now)) (SubscriptionOrder.userId row))
          (set_orders (alter (webhook_order_values cancelled (wd_id wd) body) id)
             (set_gatewayCalls (fun l => (l ++ [PreapprovalGet (wd_id wd)])%list) w))),
     Returned tt).
Proof.
  intros Ht Hd Hg Hr Hs Hh Ho Hu.
  unfold processWebhook, try_catch.
  rewrite (processWebhook_try_reaches_order env now n wd body id row w)
    by (auto using Hh).
  rewrite newStatus_cancelled by exact Hs.
  rewrite Hu. unfold webhook_entitlement, User_update, store.
  rewrite (Hh OpUserUpdate).
  destruct (plans w !! SubscriptionOrder.planId row); reflexivity.
Qed.

(** X3: when the webhook approves an order whose user and plan exist, the
    user is put on the order's plan and all four usage counters are set to
    zero, the email being kept; the order becomes approved, keeps its user,
    plan, amount and preference id, and records the provider's record. *)
Theorem webhook_grant_resets_usage env now n wd body id row user plan w :
  n_type n = "preapproval" ->
  n_data n = Some wd ->
  preapproval_get env (wd_id wd) = Returned body ->
  Preapproval.external_reference body = Some id ->
  Preapproval.status body = "authorized" ->
  healthy env ->
  orders w !! id = Some row ->
  users w !! SubscriptionOrder.userId row = Some user ->
  plans w !! SubscriptionOrder.planId row = Some plan ->
  exists user' row',
    users (fst (processWebhook env now (Some n) w)) !! SubscriptionOrder.userId row
      = Some user'
    /\ orders (fst (processWebhook env now (Some n) w)) !! id = Some row'
    /\ User.planId user' = Some (SubscriptionOrder.planId row)
    /\ User.transcriptionsUsedCount user' = 0
    /\ User.transcriptionMinutesUsed user' = 0
    /\ User.agentUsesUsed user' = 0
    /\ User.assistantUsesUsed user' = 0
    /\ User.email user' = User.email user
    /\ SubscriptionOrder.status row' = approved
    /\ SubscriptionOrder.mercadopagoPaymentDetails row' = Some body
    /\ SubscriptionOrder.userId row' = SubscriptionOrder.userId row
    /\ SubscriptionOrder.planId row' = SubscriptionOrder.planId row
    /\ SubscriptionOrder.totalAmount row' = SubscriptionOrder.totalAmount row
    /\ SubscriptionOrder.mercadopagoPreferenceId row'
       = SubscriptionOrder.mercadopagoPreferenceId row.
Proof.
  intros Ht Hd Hg Hr Hs Hh Ho Hu Hp.
  rewrite (processWebhook_authorized env now n wd body id row user plan w) by assumption.
  simpl. rewrite !lookup_alter_eq, Hu, Ho. simpl.
  do 2 eexists. split; [reflexivity |]. split; [reflexivity |].
  simpl. repeat split; reflexivity.
Qed.

Lemma webhook_grant_resets_usage_witness :
  exists user',
    users (fst (processWebhook (Scenario.env "authorized") Scenario.now
                  (Scenario.notification 72%positive) Scenario.world)) !! 2%positive
      = Some user'
    /\ User.transcriptionsUsedCount user' = 0
    /\ User.planId user' = Some 1%positive.
Proof.
  destruct (webhook_grant_resets_usage
              (Scenario.env "authorized") Scenario.now
              {| n_type := "preapproval"; n_data := Some {| wd_id := Some 72%positive |} |}
              {| wd_id := Some 72%positive |}
              (Scenario.preapproval 72%positive "authorized" (Some 2%positive))
              2%positive (Scenario.order 2%positive pending 72%positive)
              Scenario.bia Scenario.pro Scenario.world
              eq_refl eq_refl eq_refl eq_refl eq_refl
              (scenario_env_healthy "authorized") eq_refl eq_refl eq_refl)
    as (user' & row' & Hu & _ & Hplan & Hcount & _).
  exists user'. auto.
Defined.

(** X4: when the provider reports the preapproval of an order as cancelled
    or paused, the webhook sets the order to cancelled and takes the plan
    from the order's user: [planId] null and [planExpiresAt] the current
    time.  The usage counters and the email stay, and the plan row of the
    order is not needed. *)
Theorem webhook_cancellation_revokes env now n wd body id row user w :
  n_type n = "preapproval" ->
  n_data n = Some wd ->
  preapproval_get env (wd_id wd) = Returned body ->
  Preapproval.external_reference body = Some id ->
  Preapproval.status body = "cancelled" \/ Preapproval.status body = "paused" ->
  healthy env ->
  orders w !! id = Some row ->
  users w !! SubscriptionOrder.userId row = Some user ->
  exists user' row',
    users (fst (processWebhook env now (Some n) w)) !! SubscriptionOrder.userId row
      = Some user'
    /\ orders (fst (processWebhook env now (Some n) w)) !! id = Some row'
    /\ User.planId user' = None
    /\ User.planExpiresAt user' = Some now
    /\ User.transcriptionsUsedCount user' = User.transcriptionsUsedCount user
    /\ User.transcriptionMinutesUsed user' = User.transcriptionMinutesUsed user
    /\ User.agentUsesUsed user' = User.agentUsesUsed user
    /\ User.assistantUsesUsed user' = User.assistantUsesUsed user
    /\ User.email user' = User.email user
    /\ SubscriptionOrder.status row' = cancelled
    /\ SubscriptionOrder.mercadopagoPaymentDetails row' = Some body.
Proof.
  intros Ht Hd Hg Hr Hs Hh Ho Hu.
  rewrite (processWebhook_cancelled env now n wd body id row user w) by assumption.
  simpl. rewrite !lookup_alter_eq, Hu, Ho. simpl.
  do 2 eexists. split; [reflexivity |]. split; [reflexivity |].
  simpl. repeat split; reflexivity.
Qed.

Lemma webhook_cancellation_revokes_witness :
  exists user',
    users (fst (processWebhook (Scenario.env "paused") Scenario.now
                  (Scenario.notification 72%positive) Scenario.world)) !! 2%positive
      = Some user'
    /\ User.planId user' = None
    /\ User.planExpiresAt user' = Some Scenario.now.
Proof.
  destruct (webhook_cancellation_revokes
              (Scenario.env "paused") Scenario.now
              {| n_type := "preapproval"; n_data := Some {| wd_id := Some 72%positive |} |}
              {| wd_id := Some 72%positive |}
              (Scenario.preapproval 72%positive "paused" (Some 2%positive))
              2%positive (Scenario.order 2%positive pending 72%positive)
              Scenario.bia Scenario.world
              eq_refl eq_refl eq_refl eq_refl (or_intror eq_refl)
              (scenario_env_healthy "paused") eq_refl eq_refl)
    as (user' & row' & Hu & _ & Hplan & Hexp & _).
  exists user'. auto.
Defined.

(** X5: a pending order stays pending when the provider reports a status
    outside the table (anything but authorized, cancelled and paused): the
    webhook records the provider's record and its id on the order, leaves
    the order pending and leaves every user as it was. *)
Theorem webhook_unlisted_status_keeps_pending env now n wd body id row w :
  n_type n = "preapproval" ->
  n_data n = Some wd ->
  preapproval_get env (wd_id wd) = Returned body ->
  Preapproval.external_reference body = Some id ->
  Preapproval.status body <> "authorized" ->
  Preapproval.status body <> "cancelled" ->
  Preapproval.status body <> "paused" ->
  storeFault env OpOrderFindByPk = None ->
  storeFault env OpOrderUpdate = None ->
  orders w !! id = Some row ->
  SubscriptionOrder.status row = pending ->
  exists row',
    orders (fst (processWebhook env now (Some n) w)) !! id = Some row'
    /\ SubscriptionOrder.status row' = pending
    /\ SubscriptionOrder.mercadopagoPaymentDetails row' = Some body
    /\ users (fst (processWebhook env now (Some n) w)) = users w
    /\ snd (processWebhook env now (Some n) w) = Returned tt.
Proof.
  intros Ht Hd Hg Hr Ha Hc Hp Hf Hu Ho _.
  unfold processWebhook, try_catch.
  rewrite (processWebhook_try_reaches_order env now n wd body id row w) by assumption.
  rewrite (proj2 (newStatus_pending_iff body)) by auto.
  unfold webhook_entitlement. simpl.
  destruct (users w !! SubscriptionOrder.userId row),
           (plans w !! SubscriptionOrder.planId row);
    simpl; rewrite lookup_alter_eq, Ho; simpl; eexists; repeat split; reflexivity.
Qed.

Lemma webhook_unlisted_status_keeps_pending_witness :
  exists row',
    orders (fst (processWebhook (Scenario.env "pending") Scenario.now
                   (Scenario.notification 71%positive) Scenario.world)) !! 1%positive
      = Some row'
    /\ SubscriptionOrder.status row' = pending.
Proof.
  assert (H1 : Preapproval.status (Scenario.preapproval 71%positive "pending"
                                     (Some 1%positive)) <> "authorized")
    by (simpl; discriminate).
  assert (H2 : Preapproval.status (Scenario.preapproval 71%positive "pending"
                                     (Some 1%positive)) <> "cancelled")
    by (simpl; discriminate).
  assert (H3 : Preapproval.status (Scenario.preapproval 71%positive "pending"
                                     (Some 1%positive)) <> "paused")
    by (simpl; discriminate).
  destruct (webhook_unlisted_status_keeps_pending
              (Scenario.env "pending") Scenario.now
              {| n_type := "preapproval"; n_data := Some {| wd_id := Some 71%positive |} |}
              {| wd_id := Some 71%positive |}
              (Scenario.preapproval 71%positive "pending" (Some 1%positive))
              1%positive (Scenario.order 1%positive pending 71%positive) Scenario.world
              eq_refl eq_refl eq_refl eq_refl H1 H2 H3 eq_refl eq_refl eq_refl eq_refl)
    as (row' & Hlookup & Hstatus & _).
  exists row'. split; [exact Hlookup | exact Hstatus].
Defined.

(** X6: when the order's user row or plan row is missing, an "authorized"
    notification still approves the order, and no user is written. *)
Theorem webhook_approval_without_user_or_plan env now n wd body id row w :
  n_type n = "preapproval" ->
  n_data n = Some wd ->
  preapproval_get env (wd_id wd) = Returned body ->
  Preapproval.external_reference body = Some id ->
  Preapproval.status body = "authorized" ->
  storeFault env OpOrderFindByPk = None ->
  storeFault env OpOrderUpdate = None ->
  orders w !! id = Some row ->
  users w !! SubscriptionOrder.userId row = None
    \/ plans w !! SubscriptionOrder.planId row = None ->
  SubscriptionOrder.status <$> orders (fst (processWebhook env now (Some n) w)) !! id
    = Some approved
  /\ users (fst (processWebhook env now (Some n) w)) = users w
  /\ snd (processWebhook env now (Some n) w) = Returned tt.
Proof.
  intros Ht Hd Hg Hr Hs Hf Hu Ho Hmissing.
  unfold processWebhook, try_catch.
  rewrite (processWebhook_try_reaches_order env now n wd body id row w) by assumption.
  rewrite newStatus_authorized by exact Hs.
  unfold webhook_entitlement.
  destruct (users w !! SubscriptionOrder.userId row) as [user |],
           (plans w !! SubscriptionOrder.planId row) as [plan |];
    try (destruct Hmissing; discriminate);
    simpl; rewrite lookup_alter_eq, Ho; auto.
Qed.

(** The scenario with the Pro plan deleted: Ana's order is approved, Ana
    stays without a plan. *)
Lemma webhook_approval_without_user_or_plan_witness :
  SubscriptionOrder.status <$>
    orders (fst (processWebhook (Scenario.env "authorized") Scenario.now
                   (Scenario.notification 71%positive)
                   {| users := users Scenario.world;
                      plans := delete 1%positive (plans Scenario.world);
                      orders := orders Scenario.world;
                      gatewayCalls := []; console := [] |})) !! 1%positive
  = Some approved.
Proof.
  refine (proj1 (webhook_approval_without_user_or_plan
                   (Scenario.env "authorized") Scenario.now
                   {| n_type := "preapproval";
                      n_data := Some {| wd_id := Some 71%positive |} |}
                   {| wd_id := Some 71%positive |}
                   (Scenario.preapproval 71%positive "authorized" (Some 1%positive))
                   1%positive (Scenario.order 1%positive pending 71%positive)
                   {| users := users Scenario.world;
                      plans := delete 1%positive (plans Scenario.world);
                      orders := orders Scenario.world;
                      gatewayCalls := []; console := [] |}
                   eq_refl eq_refl eq_refl eq_refl eq_refl eq_refl eq_refl eq_refl _)).
  right. reflexivity.
Defined.

Lemma remove_plan_values_idempotent planExpiresAt user :
  remove_plan_values planExpiresAt (remove_plan_values planExpiresAt user)
  = remove_plan_values planExpiresAt user.
Proof. reflexivity. Qed.

Lemma webhook_order_values_idempotent st preapprovalId body row :
  webhook_order_values st preapprovalId body (webhook_order_values st preapprovalId body row)
  = webhook_order_values st preapprovalId body row.
Proof. unfold webhook_order_values. simpl. now destruct preapprovalId. Qed.

Lemma alter_twice_idempotent {A} (f : A -> A) (k : Id) (m : gmap Id A) :
  (forall x, f (f x) = f x) -> alter f k (alter f k m) = alter f k m.
Proof.
  intros Hf. apply map_eq. intros j. destruct (decide (k = j)) as [-> | Hne].
  - rewrite !lookup_alter_eq. destruct (m !! j); simpl; [now rewrite Hf | reflexivity].
  - now rewrite !lookup_alter_ne.
Qed.

(** X7: the cancellation is idempotent.  Delivering the same "cancelled" or
    "paused" notification a second time, at the same clock reading, leaves
    the users and the orders exactly as the first delivery left them. *)
Theorem webhook_cancellation_idempotent env now n wd body id row user w :
  n_type n = "preapproval" ->
  n_data n = Some wd ->
  preapproval_get env (wd_id wd) = Returned body ->
  Preapproval.external_reference body = Some id ->
  Preapproval.status body = "cancelled" \/ Preapproval.status body = "paused" ->
  healthy env ->
  orders w !! id = Some row ->
  users w !! SubscriptionOrder.userId row = Some user ->
  users (fst (processWebhook env now (Some n) (fst (processWebhook env now (Some n) w))))
    = users (fst (processWebhook env now (Some n) w))
  /\ orders (fst (processWebhook env now (Some n) (fst (processWebhook env now (Some n) w))))
     = orders (fst (processWebhook env now (Some n) w)).
Proof.
  intros Ht Hd Hg Hr Hs Hh Ho Hu.
  rewrite (processWebhook_cancelled env now n wd body id row user w) by assumption.
  cbn [fst].
  match goal with
  | |- context [processWebhook env now (Some n) ?w1] =>
      rewrite (processWebhook_cancelled env now n wd body id
                 (webhook_order_values cancelled (wd_id wd) body row)
                 (remove_plan_values (Some now) user) w1);
      try assumption
  end.
  - simpl. split.
    + apply alter_twice_idempotent. intros x. apply remove_plan_values_idempotent.
    + apply alter_twice_idempotent. intros x. apply webhook_order_values_idempotent.
  - simpl. now rewrite lookup_alter_eq, Ho.
  - simpl. now rewrite lookup_alter_eq, Hu.
Qed.

Lemma webhook_cancellation_idempotent_witness :
  users (fst (processWebhook (Scenario.env "cancelled") Scenario.now
                (Scenario.notification 72%positive)
                (fst (processWebhook (Scenario.env "cancelled") Scenario.now
                        (Scenario.notification 72%positive) Scenario.world))))
  = users (fst (processWebhook (Scenario.env "cancelled") Scenario.now
                  (Scenario.notification 72%positive) Scenario.world)).
Proof.
  exact (proj1 (webhook_cancellation_idempotent
                  (Scenario.env "cancelled") Scenario.now
                  {| n_type := "preapproval";
                     n_data := Some {| wd_id := Some 72%positive |} |}
                  {| wd_id := Some 72%positive |}
                  (Scenario.preapproval 72%positive "cancelled" (Some 2%positive))
                  2%positive (Scenario.order 2%positive pending 72%positive)
                  Scenario.bia Scenario.world
                  eq_refl eq_refl eq_refl eq_refl (or_introl eq_refl)
                  (scenario_env_healthy "cancelled") eq_refl eq_refl)).
Defined.

(** ** More on the status poller *)

(** X8: polling an order that does not exist throws
    [Error('Pedido de assinatura não encontrado.')] to the caller, after
    writing it to the console; the store is not written and the gateway is
    not called. *)
Theorem poll_of_missing_order_throws env now id w :
  storeFault env OpOrderFindByPk = None ->
  orders w !! id = None ->
  checkSubscriptionOrderStatus env now id w
  = (set_console
       (fun c => (c ++ [ConsoleError "Erro ao verificar status do pedido de assinatura:"
                          (Some (new_Error msg_no_order))])%list) w,
     Threw (new_Error msg_no_order)).
Proof.
  intros Hf Ho. open_poller. rewrite Hf. run.
  rewrite load_order_missing by exact Ho. reflexivity.
Qed.

Lemma poll_of_missing_order_throws_witness :
  snd (checkSubscriptionOrderStatus (Scenario.env "authorized") Scenario.now 50%positive
         Scenario.world)
  = Threw (new_Error msg_no_order).
Proof.
  rewrite (poll_of_missing_order_throws (Scenario.env "authorized") Scenario.now 50%positive
             Scenario.world eq_refl eq_refl).
  reflexivity.
Defined.

(** X9: an order that is not approved and has no preapproval id recorded
    (a checkout whose gateway call failed) is returned as loaded: the poller
    calls no gateway and writes nothing. *)
Theorem poll_without_preference_id_is_a_read env now id row w :
  storeFault env OpOrderFindByPk = None ->
  orders w !! id = Some row ->
  SubscriptionOrder.status row <> approved ->
  SubscriptionOrder.mercadopagoPreferenceId row = None ->
  checkSubscriptionOrderStatus env now id w = (w, Returned (load_order w id))
  /\ exists subscriptionOrder,
       load_order w id = Some subscriptionOrder /\ inst_row subscriptionOrder = row.
Proof.
  intros Hf Ho Hs Hpref.
  split.
  - open_poller. rewrite Hf. run.
    rewrite (load_order_found _ _ row) by exact Ho. run.
    rewrite (decide_False (P := SubscriptionOrder.status row = approved)) by exact Hs.
    rewrite Hpref. run. now destruct w.
  - rewrite (load_order_found _ _ row) by exact Ho. eexists. split; reflexivity.
Qed.

(** X10: when the gateway rejects the fetch, the poller swallows the error:
    it writes it to the console and returns the order as loaded.  No row of
    the store is written. *)
Theorem poll_swallows_gateway_error env now id row preferenceId e w :
  storeFault env OpOrderFindByPk = None ->
  orders w !! id = Some row ->
  SubscriptionOrder.status row <> approved ->
  SubscriptionOrder.mercadopagoPreferenceId row = Some preferenceId ->
  preapproval_get env (Some preferenceId) = Threw e ->
  checkSubscriptionOrderStatus env now id w
  = (set_console
       (fun c => (c ++ [ConsoleError "Erro ao verificar status no Mercado Pago:"
                          (Some e)])%list)
       (set_gatewayCalls (fun l => (l ++ [PreapprovalGet (Some preferenceId)])%list) w),
     Returned (load_order w id)).
Proof.
  intros Hf Ho Hs Hpref Hg.
  open_poller. rewrite Hf. run.
  rewrite (load_order_found _ _ row) by exact Ho. run.
  rewrite (decide_False (P := SubscriptionOrder.status row = approved)) by exact Hs.
  rewrite Hpref, Hg. run. reflexivity.
Qed.

(** X11: when the provider's status asks for no change (it is outside the
    table, or it maps to the status the order already has), the poller
    writes nothing, not even the provider's record, and returns the order as
    loaded after its one call to the gateway. *)
Theorem poll_without_change_writes_nothing env now id row preferenceId body w :
  storeFault env OpOrderFindByPk = None ->
  orders w !! id = Some row ->
  SubscriptionOrder.status row <> approved ->
  SubscriptionOrder.mercadopagoPreferenceId row = Some preferenceId ->
  preapproval_get env (Some preferenceId) = Returned body ->
  Preapproval.status body <> "authorized" ->
  (Preapproval.status body <> "cancelled" /\ Preapproval.status body <> "paused")
    \/ SubscriptionOrder.status row = cancelled ->
  checkSubscriptionOrderStatus env now id w
  = (set_gatewayCalls (fun l => (l ++ [PreapprovalGet (Some preferenceId)])%list) w,
     Returned (load_order w id)).
Proof.
  intros Hf Ho Hs Hpref Hg Ha Hsame.
  assert (Hst : statusAtualizado (SubscriptionOrder.status row) body
                = SubscriptionOrder.status row).
  { unfold statusAtualizado. apply String.eqb_neq in Ha. rewrite Ha.
    destruct Hsame as [[Hc Hp] | Hc].
    - apply String.eqb_neq in Hc, Hp. now rewrite Hc, Hp.
    - rewrite Hc. now destruct (_ || _). }
  open_poller. rewrite Hf. run.
  rewrite (load_order_found _ _ row) by exact Ho. run.
  rewrite (decide_False (P := SubscriptionOrder.status row = approved)) by exact Hs.
  rewrite Hpref, Hg. run. rewrite Hst.
  rewrite (decide_False (P := SubscriptionOrder.status row <> SubscriptionOrder.status row))
    by (intros H; now apply H).
  run. reflexivity.
Qed.

Lemma poll_without_preference_id_is_a_read_witness :
  checkSubscriptionOrderStatus (Scenario.env "authorized") Scenario.now 5%positive
    Scenario_more.world_with_draft
  = (Scenario_more.world_with_draft,
     Returned (load_order Scenario_more.world_with_draft 5%positive)).
Proof.
  exact (proj1 (poll_without_preference_id_is_a_read
                  (Scenario.env "authorized") Scenario.now 5%positive
                  Scenario_more.draft Scenario_more.world_with_draft
                  eq_refl eq_refl ltac:(discriminate) eq_refl)).
Defined.

Lemma poll_swallows_gateway_error_witness :
  snd (checkSubscriptionOrderStatus Scenario.env_unconfigured Scenario.now 1%positive
         Scenario.world)
  = Returned (load_order Scenario.world 1%positive)
  /\ orders (fst (checkSubscriptionOrderStatus Scenario.env_unconfigured Scenario.now
                    1%positive Scenario.world))
     = orders Scenario.world.
Proof.
  rewrite (poll_swallows_gateway_error Scenario.env_unconfigured Scenario.now 1%positive
             (Scenario.order 1%positive pending 71%positive) 71%positive
             Scenario.gateway_down Scenario.world
             eq_refl eq_refl ltac:(discriminate) eq_refl eq_refl).
  split; reflexivity.
Defined.

(** A pending order with the provider still pending, and a cancelled order
    with the provider cancelled. *)
Lemma poll_without_change_writes_nothing_witness :
  orders (fst (checkSubscriptionOrderStatus (Scenario.env "pending") Scenario.now 1%positive
                 Scenario.world))
  = orders Scenario.world
  /\ orders (fst (checkSubscriptionOrderStatus (Scenario.env "cancelled") Scenario.now
                    4%positive Scenario.world))
     = orders Scenario.world.
Proof.
  assert (H1 : Preapproval.status (Scenario.preapproval 71%positive "pending"
                                     (Some 1%positive)) <> "authorized")
    by (simpl; discriminate).
  assert (H2 : Preapproval.status (Scenario.preapproval 71%positive "pending"
                                     (Some 1%positive)) <> "cancelled")
    by (simpl; discriminate).
  assert (H3 : Preapproval.status (Scenario.preapproval 71%positive "pending"
                                     (Some 1%positive)) <> "paused")
    by (simpl; discriminate).
  assert (H4 : SubscriptionOrder.status (Scenario.order 1%positive pending 71%positive)
               <> approved)
    by (simpl; discriminate).
  assert (H5 : Preapproval.status (Scenario.preapproval 76%positive "cancelled"
                                     (Some 4%positive)) <> "authorized")
    by (simpl; discriminate).
  assert (H6 : SubscriptionOrder.status (Scenario.order 2%positive cancelled 76%positive)
               <> approved)
    by (simpl; discriminate).
  split.
  - rewrite (poll_without_change_writes_nothing (Scenario.env "pending") Scenario.now
               1%positive (Scenario.order 1%positive pending 71%positive) 71%positive
               (Scenario.preapproval 71%positive "pending" (Some 1%positive)) Scenario.world
               eq_refl eq_refl H4 eq_refl eq_refl H1 (or_introl (conj H2 H3))).
    reflexivity.
  - rewrite (poll_without_change_writes_nothing (Scenario.env "cancelled") Scenario.now
               4%positive (Scenario.order 2%positive cancelled 76%positive) 76%positive
               (Scenario.preapproval 76%positive "cancelled" (Some 4%positive)) Scenario.world
               eq_refl eq_refl H6 eq_refl eq_refl H5 (or_intror eq_refl)).
    reflexivity.
Defined.

(** The poller on an order that is not approved, when the provider reports
    its preapproval as authorized and the order's user and plan exist. *)
Lemma checkSubscriptionOrderStatus_approves env now id row preferenceId body user plan w :
  healthy env ->
  orders w !! id = Some row ->
  SubscriptionOrder.status row <> approved ->
  SubscriptionOrder.mercadopagoPreferenceId row = Some preferenceId ->
  preapproval_get env (Some preferenceId) = Returned body ->
  Preapproval.status body = "authorized" ->
  users w !! SubscriptionOrder.userId row = Some user ->
  plans w !! SubscriptionOrder.planId row = Some plan ->
  checkSubscriptionOrderStatus env now id w =
    (set_console
       (fun c => (c ++ [ConsoleLog
                          "Plano ativado/estendido para o usuário via verificação de status."])%list)
       (set_users
          (alter (poll_grant_values (SubscriptionOrder.planId row)
                    (newExpirationDate now user plan))
                 (SubscriptionOrder.userId row))
          (set_orders (alter (poll_order_values approved body) id)
             (set_gatewayCalls (fun l => (l ++ [PreapprovalGet (Some preferenceId)])%list) w))),
     Returned (Some {| inst_id := id; inst_row := poll_order_values approved body row;
                       inst_user := None; inst_plan := None |})).
Proof.
  intros Hh Ho Hs Hpref Hg Hst Hu Hp.
  open_poller. rewrite !Hh. run.
  rewrite (load_order_found _ _ row) by exact Ho. run.
  rewrite Hpref, Hg, Hu, Hp.
  rewrite (decide_False (P := SubscriptionOrder.status row = approved)) by exact Hs. run.
  rewrite (statusAtualizado_authorized _ body Hst).
  rewrite (decide_True (P := approved <> SubscriptionOrder.status row)) by congruence.
  cbn [fmap option_fmap option_map present]. run.
  rewrite lookup_alter_eq, Ho. reflexivity.
Qed.

(** X12: when the poller approves an order (pending or cancelled) whose
    user and plan exist, it puts the user on the order's plan with the same
    expiration as the webhook computes; the order becomes approved and
    records the provider's record, and the caller gets the order as read
    back from the store, without its associations. *)
Theorem poll_grant_writes_plan_and_expiration env now id row preferenceId body user plan w :
  healthy env ->
  orders w !! id = Some row ->
  SubscriptionOrder.status row <> approved ->
  SubscriptionOrder.mercadopagoPreferenceId row = Some preferenceId ->
  preapproval_get env (Some preferenceId) = Returned body ->
  Preapproval.status body = "authorized" ->
  users w !! SubscriptionOrder.userId row = Some user ->
  plans w !! SubscriptionOrder.planId row = Some plan ->
  exists user' row',
    users (fst (checkSubscriptionOrderStatus env now id w)) !! SubscriptionOrder.userId row
      = Some user'
    /\ orders (fst (checkSubscriptionOrderStatus env now id w)) !! id = Some row'
    /\ snd (checkSubscriptionOrderStatus env now id w)
       = Returned (Some {| inst_id := id; inst_row := row';
                           inst_user := None; inst_plan := None |})
    /\ User.planId user' = Some (SubscriptionOrder.planId row)
    /\ User.planExpiresAt user' = Some (newExpirationDate now user plan)
    /\ User.email user' = User.email user
    /\ SubscriptionOrder.status row' = approved
    /\ SubscriptionOrder.mercadopagoPaymentDetails row' = Some body
    /\ SubscriptionOrder.mercadopagoPreferenceId row' = Some preferenceId.
Proof.
  intros Hh Ho Hs Hpref Hg Hst Hu Hp.
  rewrite (checkSubscriptionOrderStatus_approves env now id row preferenceId body user plan w)
    by assumption.
  simpl. rewrite !lookup_alter_eq, Hu, Ho. simpl.
  do 2 eexists. split; [reflexivity |]. split; [reflexivity |].
  simpl. repeat split; try reflexivity. exact Hpref.
Qed.

(** The cancelled order 4 of Bia, authorized again by the provider. *)
Lemma poll_grant_writes_plan_and_expiration_witness :
  exists user',
    users (fst (checkSubscriptionOrderStatus (Scenario.env "authorized") Scenario.now
                  4%positive Scenario.world)) !! 2%positive
      = Some user'
    /\ User.planId user' = Some 1%positive.
Proof.
  assert (H : SubscriptionOrder.status (Scenario.order 2%positive cancelled 76%positive)
              <> approved)
    by (simpl; discriminate).
  destruct (poll_grant_writes_plan_and_expiration (Scenario.env "authorized") Scenario.now
              4%positive (Scenario.order 2%positive cancelled 76%positive) 76%positive
              (Scenario.preapproval 76%positive "authorized" (Some 4%positive))
              Scenario.bia Scenario.pro Scenario.world
              (scenario_env_healthy "authorized") eq_refl H eq_refl eq_refl eq_refl
              eq_refl eq_refl)
    as (user' & row' & Hu & _ & _ & Hplan & _).
  exists user'. split; [exact Hu | exact Hplan].
Defined.

(** The poller on an order that is approved (line 202). *)
Lemma checkSubscriptionOrderStatus_approved env now id row w :
  storeFault env OpOrderFindByPk = None ->
  orders w !! id = Some row ->
  SubscriptionOrder.status row = approved ->
  checkSubscriptionOrderStatus env now id w = (w, Returned (load_order w id)).
Proof.
  intros Hf Ho Hs. open_poller. rewrite Hf. run.
  rewrite (load_order_found _ _ row) by exact Ho. run.
  rewrite Hs. reflexivity.
Qed.

(** X13: polling is idempotent on an approval.  Once a poll has approved
    the order, a second poll, at any later time and whatever the gateway
    would answer, calls no gateway and leaves the whole state as the first
    poll left it: the expiration is extended once. *)
Theorem poll_twice_grants_once env now id row preferenceId body user plan w env2 now2 :
  healthy env ->
  orders w !! id = Some row ->
  SubscriptionOrder.status row <> approved ->
  SubscriptionOrder.mercadopagoPreferenceId row = Some preferenceId ->
  preapproval_get env (Some preferenceId) = Returned body ->
  Preapproval.status body = "authorized" ->
  users w !! SubscriptionOrder.userId row = Some user ->
  plans w !! SubscriptionOrder.planId row = Some plan ->
  storeFault env2 OpOrderFindByPk = None ->
  fst (checkSubscriptionOrderStatus env2 now2 id
         (fst (checkSubscriptionOrderStatus env now id w)))
  = fst (checkSubscriptionOrderStatus env now id w).
Proof.
  intros Hh Ho Hs Hpref Hg Hst Hu Hp Hf2.
  rewrite (checkSubscriptionOrderStatus_approves env now id row preferenceId body user plan w)
    by assumption.
  cbn [fst].
  rewrite (checkSubscriptionOrderStatus_approved env2 now2 id
             (poll_order_values approved body row)).
  - reflexivity.
  - exact Hf2.
  - simpl. now rewrite lookup_alter_eq, Ho.
  - reflexivity.
Qed.

Lemma poll_twice_grants_once_witness :
  fst (checkSubscriptionOrderStatus (Scenario.env "authorized") (addDays Scenario.now 1)
         1%positive
         (fst (checkSubscriptionOrderStatus (Scenario.env "authorized") Scenario.now
                 1%positive Scenario.world)))
  = fst (checkSubscriptionOrderStatus (Scenario.env "authorized") Scenario.now 1%positive
           Scenario.world).
Proof.
  assert (H : SubscriptionOrder.status (Scenario.order 1%positive pending 71%positive)
              <> approved)
    by (simpl; discriminate).
  exact (poll_twice_grants_once (Scenario.env "authorized") Scenario.now 1%positive
           (Scenario.order 1%positive pending 71%positive) 71%positive
           (Scenario.preapproval 71%positive "authorized" (Some 1%positive))
           Scenario.ana Scenario.pro Scenario.world
           (Scenario.env "authorized") (addDays Scenario.now 1)
           (scenario_env_healthy "authorized") eq_refl H eq_refl eq_refl eq_refl
           eq_refl eq_refl eq_refl).
Defined.

(** The shape of every run of the poller. *)
Lemma checkSubscriptionOrderStatus_shape env now id w :
  plans (fst (checkSubscriptionOrderStatus env now id w)) = plans w
  /\ rewrites_one_row (orders w) (orders (fst (checkSubscriptionOrderStatus env now id w)))
  /\ rewrites_one_row (users w) (users (fst (checkSubscriptionOrderStatus env now id w)))
  /\ at_most_one_call (gatewayCalls w)
       (gatewayCalls (fst (checkSubscriptionOrderStatus env now id w))).
Proof.
  open_poller. run. cases.
  all: repeat split.
  all: try reflexivity.
  all: try (left; reflexivity).
  all: try (right; eexists; reflexivity).
  all: try (right; do 2 eexists; reflexivity).
Qed.

(** X14: whatever the gateway and the store do, one poll creates no row
    and deletes none, never writes a plan, changes at most one order row and
    at most one user row, and calls the gateway at most once. *)
Theorem poll_touches_one_order_one_user env now id w :
  plans (fst (checkSubscriptionOrderStatus env now id w)) = plans w
  /\ dom (users (fst (checkSubscriptionOrderStatus env now id w))) = dom (users w)
  /\ dom (orders (fst (checkSubscriptionOrderStatus env now id w))) = dom (orders w)
  /\ (exists k, forall j, j <> k ->
        orders (fst (checkSubscriptionOrderStatus env now id w)) !! j = orders w !! j)
  /\ (exists k, forall j, j <> k ->
        users (fst (checkSubscriptionOrderStatus env now id w)) !! j = users w !! j)
  /\ at_most_one_call (gatewayCalls w)
       (gatewayCalls (fst (checkSubscriptionOrderStatus env now id w))).
Proof.
  destruct (checkSubscriptionOrderStatus_shape env now id w) as (Hp & Ho & Hu & Hg).
  split; [exact Hp |].
  split; [now apply rewrites_one_row_dom |].
  split; [now apply rewrites_one_row_dom |].
  split; [now apply rewrites_one_row_elsewhere |].
  split; [now apply rewrites_one_row_elsewhere | exact Hg].
Qed.

(** ** More on the active plan of a user *)

(** X15: asking for the active plan of a user that does not exist throws
    [Error('Usuário não encontrado.')] to the caller, after writing it to
    the console; nothing else changes. *)
Theorem getUserActivePlan_of_missing_user_throws env now userId w :
  storeFault env OpUserFindByPk = None ->
  users w !! userId = None ->
  getUserActivePlan env now userId w
  = (set_console
       (fun c => (c ++ [ConsoleError "Erro ao obter plano ativo do usuário:"
                          (Some (new_Error msg_no_user))])%list) w,
     Threw (new_Error msg_no_user)).
Proof.
  intros Hf Hu.
  unfold getUserActivePlan, getUserActivePlan_try, User_findByPk_include, store.
  rewrite Hf. run. rewrite Hu. reflexivity.
Qed.

Lemma getUserActivePlan_of_missing_user_throws_witness :
  snd (getUserActivePlan (Scenario.env "pending") Scenario.now 50%positive Scenario.world)
  = Threw (new_Error msg_no_user).
Proof.
  rewrite (getUserActivePlan_of_missing_user_throws (Scenario.env "pending") Scenario.now
             50%positive Scenario.world eq_refl eq_refl).
  reflexivity.
Defined.





(** Lines 306-319 for a user without [planId]. *)
Lemma getUserActivePlan_no_plan env now userId user w :
  storeFault env OpUserFindByPk = None ->
  users w !! userId = Some user ->
  User.planId user = None ->
  getUserActivePlan env now userId w = (w, Returned None).
Proof.
  intros Hf Hu Hplan.
  unfold getUserActivePlan, getUserActivePlan_try, User_findByPk_include, store.
  rewrite Hf. run. rewrite Hu. cbn [fmap option_fmap option_map].
  rewrite Hplan. run. now destruct w.
Qed.

(** X17: for a user whose [planId] is null, [getUserActivePlan] returns
    null and writes nothing, whatever the user's [planExpiresAt] is. *)
Theorem getUserActivePlan_without_plan_is_a_read env now userId user w :
  storeFault env OpUserFindByPk = None ->
  users w !! userId = Some user ->
  User.planId user = None ->
  getUserActivePlan env now userId w = (w, Returned None).
Proof. apply getUserActivePlan_no_plan. Qed.

Lemma getUserActivePlan_without_plan_is_a_read_witness :
  getUserActivePlan (Scenario.env "pending") Scenario.now 1%positive Scenario.world
  = (Scenario.world, Returned None).
Proof.
  exact (getUserActivePlan_without_plan_is_a_read (Scenario.env "pending") Scenario.now
           1%positive Scenario.ana Scenario.world eq_refl eq_refl eq_refl).
Defined.

(** The lazy expiry of lines 314-317, as an equation. *)
Lemma getUserActivePlan_clears env now userId user planId w :
  storeFault env OpUserFindByPk = None ->
  storeFault env OpUserUpdate = None ->
  users w !! userId = Some user ->
  User.planId user = Some planId ->
  User.planExpiresAt user = None
    \/ (exists planExpiresAt, User.planExpiresAt user = Some planExpiresAt
                              /\ planExpiresAt <= now)
    \/ plans w !! planId = None ->
  getUserActivePlan env now userId w
    = (set_users (alter (remove_plan_values None) userId) w, Returned None).
Proof.
  intros Hf Hu Hlookup Hplan Hstale.
  unfold getUserActivePlan, getUserActivePlan_try, User_findByPk_include, User_update, store.
  rewrite Hf, Hu. run. rewrite Hlookup. cbn [fmap option_fmap option_map]. rewrite Hplan.
  destruct (plans w !! planId) as [currentPlan |] eqn:Hp;
    destruct (User.planExpiresAt user) as [planExpiresAt |] eqn:He;
    cbn [fmap option_fmap option_map];
    try (destruct (Z.ltb_spec now planExpiresAt) as [Hlt | Hge]);
    run; try reflexivity.
  exfalso. destruct Hstale as [Hnone | [(t & Ht & Hle) | Hnoplan]];
    [discriminate | injection Ht as <-; lia | discriminate].
Qed.

(** X18: the lazy expiry happens once.  After [getUserActivePlan] has
    cleared a stale plan, asking again, at any time, returns null and
    leaves the whole state as the first call left it. *)
Theorem getUserActivePlan_clears_once env now userId user planId w env2 now2 :
  storeFault env OpUserFindByPk = None ->
  storeFault env OpUserUpdate = None ->
  users w !! userId = Some user ->
  User.planId user = Some planId ->
  User.planExpiresAt user = None
    \/ (exists planExpiresAt, User.planExpiresAt user = Some planExpiresAt
                              /\ planExpiresAt <= now)
    \/ plans w !! planId = None ->
  storeFault env2 OpUserFindByPk = None ->
  getUserActivePlan env2 now2 userId (fst (getUserActivePlan env now userId w))
  = (fst (getUserActivePlan env now userId w), Returned None).
Proof.
  intros Hf Hu Hlookup Hplan Hstale Hf2.
  rewrite (getUserActivePlan_clears env now userId user planId w) by assumption.
  cbn [fst].
  apply (getUserActivePlan_no_plan env2 now2 userId
           (remove_plan_values None user)); [exact Hf2 | | reflexivity].
  simpl. now rewrite lookup_alter_eq, Hlookup.
Qed.

Lemma getUserActivePlan_clears_once_witness :
  getUserActivePlan (Scenario.env "pending") (addDays Scenario.now 20) 3%positive
    (fst (getUserActivePlan (Scenario.env "pending") Scenario.now 3%positive Scenario.world))
  = (fst (getUserActivePlan (Scenario.env "pending") Scenario.now 3%positive Scenario.world),
     Returned None).
Proof.
  exact (getUserActivePlan_clears_once (Scenario.env "pending") Scenario.now 3%positive
           Scenario.caio 9%positive Scenario.world
           (Scenario.env "pending") (addDays Scenario.now 20)
           eq_refl eq_refl eq_refl eq_refl (or_intror (or_intror eq_refl)) eq_refl).
Defined.



(** X20: a revoked plan is gone.  After the webhook has processed a
    "cancelled" or "paused" notification for an order whose user exists,
    [getUserActivePlan] returns null for that user at any time, and writes
    nothing. *)
Theorem revoked_plan_is_inactive env now n wd body id row user w env2 now2 :
  n_type n = "preapproval" ->
  n_data n = Some wd ->
  preapproval_get env (wd_id wd) = Returned body ->
  Preapproval.external_reference body = Some id ->
  Preapproval.status body = "cancelled" \/ Preapproval.status body = "paused" ->
  healthy env ->
  orders w !! id = Some row ->
  users w !! SubscriptionOrder.userId row = Some user ->
  storeFault env2 OpUserFindByPk = None ->
  getUserActivePlan env2 now2 (SubscriptionOrder.userId row)
    (fst (processWebhook env now (Some n) w))
  = (fst (processWebhook env now (Some n) w), Returned None).
Proof.
  intros Ht Hd Hg Hr Hs Hh Ho Hu Hf2.
  rewrite (processWebhook_cancelled env now n wd body id row user w) by assumption.
  cbn [fst].
  apply (getUserActivePlan_no_plan env2 now2 (SubscriptionOrder.userId row)
           (remove_plan_values (Some now) user)); [exact Hf2 | | reflexivity].
  simpl. now rewrite lookup_alter_eq, Hu.
Qed.

Lemma revoked_plan_is_inactive_witness :
  snd (getUserActivePlan (Scenario.env "pending") Scenario.now 2%positive
         (fst (processWebhook (Scenario.env "cancelled") Scenario.now
                 (Scenario.notification 72%positive) Scenario.world)))
  = Returned None.
Proof.
  pose proof (revoked_plan_is_inactive
                (Scenario.env "cancelled") Scenario.now
                {| n_type := "preapproval"; n_data := Some {| wd_id := Some 72%positive |} |}
                {| wd_id := Some 72%positive |}
                (Scenario.preapproval 72%positive "cancelled" (Some 2%positive))
                2%positive (Scenario.order 2%positive pending 72%positive)
                Scenario.bia Scenario.world (Scenario.env "pending") Scenario.now
                eq_refl eq_refl eq_refl eq_refl (or_introl eq_refl)
                (scenario_env_healthy "cancelled") eq_refl eq_refl eq_refl) as Hrun.
  simpl SubscriptionOrder.userId in Hrun.
  change (Scenario.notification 72%positive)
    with (Some {| n_type := "preapproval";
                  n_data := Some {| wd_id := Some 72%positive |} |}).
  now rewrite Hrun.
Defined.

(** ** More on checkout *)

(** The order a checkout creates, once the provider's id is recorded. *)
Lemma createCheckoutForPlan_succeeds env now userId planId user plan response w :
  isConfigured env = true ->
  healthy env ->
  users w !! userId = Some user ->
  plans w !! planId = Some plan ->
  orders w !! createdOrderId env = None ->
  preapproval_create env (subscriptionPayload env now (createdOrderId env) user plan)
    = Returned response ->
  createCheckoutForPlan env now userId planId w
  = (set_orders
       (insert (createdOrderId env)
          {| SubscriptionOrder.userId := userId;
             SubscriptionOrder.planId := planId;
             SubscriptionOrder.totalAmount := Plan.price plan;
             SubscriptionOrder.status := pending;
             SubscriptionOrder.mercadopagoPreferenceId := Some (Preapproval.id response);
             SubscriptionOrder.mercadopagoPaymentId := None;
             SubscriptionOrder.mercadopagoPaymentDetails := None |})
       (set_gatewayCalls
          (fun l => (l ++ [PreapprovalCreate
                             (subscriptionPayload env now (createdOrderId env) user plan)])%list)
          (set_console
             (fun c => (c ++ [ConsoleLog
                                "[MercadoPago] Enviando objeto de assinatura (preapproval):"])%list)
             w)),
     Returned {| checkoutUrl := Preapproval.init_point response;
                 preapprovalId := Preapproval.id response |}).
Proof.
  intros Hc Hh Hu Hp Hfree Hg.
  rewrite createCheckoutForPlan_configured by exact Hc.
  unfold createCheckoutForPlan_try, User_findByPk, Plan_findByPk,
    SubscriptionOrder_create, SubscriptionOrder_update, store.
  rewrite !Hh. run. rewrite Hu, Hp. simpl. run. rewrite Hfree. run. rewrite Hg. run.
  f_equal. unfold set_orders. cbn [users plans orders gatewayCalls console].
  f_equal. now rewrite alter_insert_eq.
Qed.

(** X21: a checkout that goes through returns the provider's checkout URL
    and preapproval id, and stores exactly one new order: pending, for the
    given user and plan, with the plan's price as amount and the provider's
    id as preference id.  The gateway is called once, with a payload whose
    external reference is the key of that order, whose payer is the user's
    email and whose amount is the plan's price.  Users, plans and the other
    orders are as before. *)
Theorem checkout_creates_pending_order env now userId planId user plan response w :
  isConfigured env = true ->
  healthy env ->
  users w !! userId = Some user ->
  plans w !! planId = Some plan ->
  orders w !! createdOrderId env = None ->
  preapproval_create env (subscriptionPayload env now (createdOrderId env) user plan)
    = Returned response ->
  snd (createCheckoutForPlan env now userId planId w)
    = Returned {| checkoutUrl := Preapproval.init_point response;
                  preapprovalId := Preapproval.id response |}
  /\ orders (fst (createCheckoutForPlan env now userId planId w))
     = <[createdOrderId env :=
           {| SubscriptionOrder.userId := userId;
              SubscriptionOrder.planId := planId;
              SubscriptionOrder.totalAmount := Plan.price plan;
              SubscriptionOrder.status := pending;
              SubscriptionOrder.mercadopagoPreferenceId := Some (Preapproval.id response);
              SubscriptionOrder.mercadopagoPaymentId := None;
              SubscriptionOrder.mercadopagoPaymentDetails := None |}]> (orders w)
  /\ users (fst (createCheckoutForPlan env now userId planId w)) = users w
  /\ plans (fst (createCheckoutForPlan env now userId planId w)) = plans w
  /\ exists payload,
       gatewayCalls (fst (createCheckoutForPlan env now userId planId w))
         = (gatewayCalls w ++ [PreapprovalCreate payload])%list
       /\ payload_external_reference payload = createdOrderId env
       /\ payer_email payload = User.email user
       /\ transaction_amount payload = Plan.price plan
       /\ payload_status payload = "pending".
Proof.
  intros Hc Hh Hu Hp Hfree Hg.
  rewrite (createCheckoutForPlan_succeeds env now userId planId user plan response w)
    by assumption.
  simpl. repeat split.
  eexists. repeat split.
Qed.

Lemma checkout_creates_pending_order_witness :
  snd (createCheckoutForPlan (Scenario.env "pending") Scenario.now 1%positive 1%positive
         Scenario.world)
  = Returned {| checkoutUrl := "https://mp.example/checkout"; preapprovalId := 80%positive |}
  /\ users (fst (createCheckoutForPlan (Scenario.env "pending") Scenario.now 1%positive
                   1%positive Scenario.world))
     = users Scenario.world.
Proof.
  destruct (checkout_creates_pending_order (Scenario.env "pending") Scenario.now
              1%positive 1%positive Scenario.ana Scenario.pro
              (Scenario.preapproval 80%positive "pending" (Some 9%positive)) Scenario.world
              eq_refl (scenario_env_healthy "pending") eq_refl eq_refl eq_refl eq_refl)
    as (Hret & _ & Husers & _).
  split; [exact Hret | exact Husers].
Defined.

(** The shape of every run of a checkout. *)
Lemma createCheckoutForPlan_shape env now userId planId w :
  users (fst (createCheckoutForPlan env now userId planId w)) = users w
  /\ plans (fst (createCheckoutForPlan env now userId planId w)) = plans w
  /\ at_most_one_call (gatewayCalls w)
       (gatewayCalls (fst (createCheckoutForPlan env now userId planId w)))
  /\ (orders (fst (createCheckoutForPlan env now userId planId w)) = orders w
      \/ (orders w !! createdOrderId env = None
          /\ exists row,
               orders (fst (createCheckoutForPlan env now userId planId w))
                 = <[createdOrderId env := row]> (orders w)
               /\ SubscriptionOrder.status row = pending
               /\ SubscriptionOrder.userId row = userId
               /\ SubscriptionOrder.planId row = planId)).
Proof.
  unfold createCheckoutForPlan, createCheckoutForPlan_try, User_findByPk, Plan_findByPk,
    SubscriptionOrder_create, SubscriptionOrder_update, store.
  destruct (isConfigured env); cbn [negb]; run;
    [| repeat split; try reflexivity; left; reflexivity].
  cases.
  all: repeat split; try reflexivity.
  all: try (left; reflexivity).
  all: try (right; eexists; reflexivity).
  all: right; (split; [first [assumption | reflexivity] |]).
  all: eexists; split;
         [first [reflexivity | apply alter_insert_eq] | repeat split; reflexivity].
Qed.

(** X22: whatever the gateway and the store do, checkout creation never
    writes a user or a plan and never changes or removes an order that
    exists; it adds at most one order, which is pending and for the given
    user and plan, and it calls the gateway at most once. *)
Theorem checkout_adds_at_most_one_pending_order env now userId planId w :
  users (fst (createCheckoutForPlan env now userId planId w)) = users w
  /\ plans (fst (createCheckoutForPlan env now userId planId w)) = plans w
  /\ (forall k row,
        orders w !! k = Some row ->
        orders (fst (createCheckoutForPlan env now userId planId w)) !! k = Some row)
  /\ (forall k row',
        orders (fst (createCheckoutForPlan env now userId planId w)) !! k = Some row' ->
        orders w !! k = None ->
        k = createdOrderId env
        /\ SubscriptionOrder.status row' = pending
        /\ SubscriptionOrder.userId row' = userId
        /\ SubscriptionOrder.planId row' = planId)
  /\ at_most_one_call (gatewayCalls w)
       (gatewayCalls (fst (createCheckoutForPlan env now userId planId w))).
Proof.
  destruct (createCheckoutForPlan_shape env now userId planId w)
    as (Hu & Hp & Hg & [Ho | (Hfree & row & Ho & Hs & Hru & Hrp)]).
  - rewrite Ho. repeat split; try assumption; congruence.
  - rewrite Ho. split; [exact Hu |]. split; [exact Hp |]. split; [| split; [| exact Hg]].
    + intros k r Hk. destruct (decide (createdOrderId env = k)) as [<- | Hne].
      * congruence.
      * now rewrite lookup_insert_ne.
    + intros k r' Hk Hnone. destruct (decide (createdOrderId env = k)) as [<- | Hne].
      * rewrite lookup_insert_eq in Hk. injection Hk as <-. auto.
      * rewrite lookup_insert_ne in Hk by exact Hne. congruence.
Qed.

(** X23: from checkout to entitlement.  After a checkout that went through,
    a webhook notification whose provider record echoes the order's key as
    external reference and reports "authorized" approves the new order and
    puts the user on the plan, with the expiration counted at the time of
    the notification and the usage counters at zero. *)
Theorem checkout_then_webhook_grants env now userId planId user plan response w
    env2 now2 n wd body :
  isConfigured env = true ->
  healthy env ->
  users w !! userId = Some user ->
  plans w !! planId = Some plan ->
  orders w !! createdOrderId env = None ->
  preapproval_create env (subscriptionPayload env now (createdOrderId env) user plan)
    = Returned response ->
  healthy env2 ->
  n_type n = "preapproval" ->
  n_data n = Some wd ->
  preapproval_get env2 (wd_id wd) = Returned body ->
  Preapproval.external_reference body = Some (createdOrderId env) ->
  Preapproval.status body = "authorized" ->
  exists user' row',
    users (fst (processWebhook env2 now2 (Some n)
                  (fst (createCheckoutForPlan env now userId planId w)))) !! userId
      = Some user'
    /\ orders (fst (processWebhook env2 now2 (Some n)
                      (fst (createCheckoutForPlan env now userId planId w))))
         !! createdOrderId env
       = Some row'
    /\ SubscriptionOrder.status row' = approved
    /\ SubscriptionOrder.mercadopagoPreferenceId row' = Some (Preapproval.id response)
    /\ User.planId user' = Some planId
    /\ User.planExpiresAt user' = Some (newExpirationDate now2 user plan)
    /\ User.transcriptionsUsedCount user' = 0
    /\ User.transcriptionMinutesUsed user' = 0
    /\ User.agentUsesUsed user' = 0
    /\ User.assistantUsesUsed user' = 0.
Proof.
  intros Hc Hh Hu Hp Hfree Hg Hh2 Ht Hd Hg2 Hr Hs.
  rewrite (createCheckoutForPlan_succeeds env now userId planId user plan response w)
    by assumption.
  cbn [fst].
  match goal with
  | |- context [processWebhook env2 now2 (Some n) ?w1] =>
      rewrite (processWebhook_authorized env2 now2 n wd body (createdOrderId env)
                 {| SubscriptionOrder.userId := userId;
                    SubscriptionOrder.planId := planId;
                    SubscriptionOrder.totalAmount := Plan.price plan;
                    SubscriptionOrder.status := pending;
                    SubscriptionOrder.mercadopagoPreferenceId :=
                      Some (Preapproval.id response);
                    SubscriptionOrder.mercadopagoPaymentId := None;
                    SubscriptionOrder.mercadopagoPaymentDetails := None |}
                 user plan w1);
      try assumption
  end.
  - simpl. rewrite !lookup_alter_eq, lookup_insert_eq, Hu. simpl.
    do 2 eexists. split; [reflexivity |]. split; [reflexivity |].
    simpl. repeat split; reflexivity.
  - simpl. now rewrite lookup_insert_eq.
Qed.

(** Ana buys the Pro plan: the checkout creates order 9 with preapproval 80,
    and the provider then reports preapproval 80 as authorized. *)
Lemma checkout_then_webhook_grants_witness :
  exists user',
    users (fst (processWebhook
                  {| isConfigured := true;
                     preapproval_get :=
                       fun _ => Returned (Scenario.preapproval 80%positive "authorized"
                                            (Some 9%positive));
                     preapproval_create := fun _ => Threw Scenario.gateway_down;
                     storeFault := fun _ => None;
                     createdOrderId := 10%positive;
                     oneYearAfter := fun t => addDays t 365 |}
                  (addDays Scenario.now 1)
                  (Scenario.notification 80%positive)
                  (fst (createCheckoutForPlan (Scenario.env "pending") Scenario.now
                          1%positive 1%positive Scenario.world)))) !! 1%positive
      = Some user'
    /\ User.planId user' = Some 1%positive
    /\ User.planExpiresAt user' = Some (addDays Scenario.now 31).
Proof.
  destruct (checkout_then_webhook_grants (Scenario.env "pending") Scenario.now
              1%positive 1%positive Scenario.ana Scenario.pro
              (Scenario.preapproval 80%positive "pending" (Some 9%positive)) Scenario.world
              {| isConfigured := true;
                 preapproval_get :=
                   fun _ => Returned (Scenario.preapproval 80%positive "authorized"
                                        (Some 9%positive));
                 preapproval_create := fun _ => Threw Scenario.gateway_down;
                 storeFault := fun _ => None;
                 createdOrderId := 10%positive;
                 oneYearAfter := fun t => addDays t 365 |}
              (addDays Scenario.now 1)
              {| n_type := "preapproval"; n_data := Some {| wd_id := Some 80%positive |} |}
              {| wd_id := Some 80%positive |}
              (Scenario.preapproval 80%positive "authorized" (Some 9%positive))
              eq_refl (scenario_env_healthy "pending") eq_refl eq_refl eq_refl eq_refl
              (fun op => eq_refl) eq_refl eq_refl eq_refl eq_refl eq_refl)
    as (user' & row' & Hu & _ & _ & _ & Hplan & Hexp & _).
  exists user'. split; [exact Hu |]. split; [exact Hplan | exact Hexp].
Defined.

(** ** Plan assignment by an administrator *)

Lemma assignPlanToUser_assigns env now userId planId user plan w :
  storeFault env OpUserFindByPk = None ->
  storeFault env OpPlanFindByPk = None ->
  storeFault env OpUserUpdate = None ->
  users w !! userId = Some user ->
  plans w !! planId = Some plan ->
  0 <= now \/ User.planExpiresAt user <> None ->
  assignPlanToUser env now userId (Some planId) w
  = (set_users
       (alter (webhook_grant_values planId (grantOrExtend_spec now user planId plan)) userId) w,
     Returned (PlanAssigned (Plan.name plan) (User.email user)
                 (grantOrExtend_spec now user planId plan))).
Proof.
  intros Hf Hfp Hfu Hu Hp Hnow.
  assert (Hrule :
    addDays (if bool_decide (User.planId user = Some planId)
                && expires_after (User.planExpiresAt user) now
             then new_Date (User.planExpiresAt user) else now)
            (Plan.durationInDays plan)
    = grantOrExtend_spec now user planId plan).
  { unfold grantOrExtend_spec, expires_after, new_Date.
    destruct (User.planExpiresAt user) as [current |].
    - now destruct (bool_decide _ && _).
    - destruct Hnow as [Hnow | Hnow]; [| congruence].
      apply Z.ltb_ge in Hnow. rewrite Hnow. now rewrite andb_false_r. }
  unfold assignPlanToUser, User_findByPk, Plan_findByPk, User_update, store.
  rewrite Hf, Hfp, Hfu. run. rewrite Hu. cbn [fmap option_fmap option_map]. run.
  rewrite Hp. cbn [fmap option_fmap option_map]. run.
  rewrite Hrule. reflexivity.
Qed.

(** X24: [assignPlanToUser] implements the rule of the specification's
    entitlement calculator.  The new expiration is the current one plus the
    plan's duration when the user is on the very plan being assigned and the
    current expiration is strictly in the future, and now plus the plan's
    duration in every other case; the user is put on the plan and the four
    usage counters are set to zero.  (The clock is taken at or after the
    epoch, or the user's expiration not null: the source compares a null
    expiration with the clock unguarded, and null counts as the epoch.) *)
Theorem admin_assignment_follows_the_rule env now userId planId user plan w :
  storeFault env OpUserFindByPk = None ->
  storeFault env OpPlanFindByPk = None ->
  storeFault env OpUserUpdate = None ->
  users w !! userId = Some user ->
  plans w !! planId = Some plan ->
  0 <= now \/ User.planExpiresAt user <> None ->
  exists user',
    users (fst (assignPlanToUser env now userId (Some planId) w)) !! userId = Some user'
    /\ User.planId user' = Some planId
    /\ User.planExpiresAt user' = Some (grantOrExtend_spec now user planId plan)
    /\ (forall currentExpiration,
          User.planId user = Some planId ->
          User.planExpiresAt user = Some currentExpiration ->
          now < currentExpiration ->
          User.planExpiresAt user'
            = Some (addDays currentExpiration (Plan.durationInDays plan)))
    /\ (User.planId user <> Some planId ->
        User.planExpiresAt user' = Some (addDays now (Plan.durationInDays plan)))
    /\ User.transcriptionsUsedCount user' = 0
    /\ User.transcriptionMinutesUsed user' = 0
    /\ User.agentUsesUsed user' = 0
    /\ User.assistantUsesUsed user' = 0
    /\ snd (assignPlanToUser env now userId (Some planId) w)
       = Returned (PlanAssigned (Plan.name plan) (User.email user)
                     (grantOrExtend_spec now user planId plan)).
Proof.
  intros Hf Hfp Hfu Hu Hp Hnow.
  rewrite (assignPlanToUser_assigns env now userId planId user plan w) by assumption.
  simpl. rewrite lookup_alter_eq, Hu. simpl.
  eexists. split; [reflexivity |]. simpl.
  split; [reflexivity |]. split; [reflexivity |].
  split; [| split; [| repeat split; reflexivity]].
  - intros current Hsame He Hlt. unfold grantOrExtend_spec. rewrite He.
    rewrite bool_decide_eq_true_2 by exact Hsame.
    apply Z.ltb_lt in Hlt. now rewrite Hlt.
  - intros Hother. unfold grantOrExtend_spec.
    rewrite bool_decide_eq_false_2 by exact Hother.
    now destruct (User.planExpiresAt user).
Qed.

(** Bia, on Basic until ten days from now, is assigned Pro by the
    administrator: thirty days from now, nothing carried over. *)
Lemma admin_assignment_follows_the_rule_witness :
  exists user',
    users (fst (assignPlanToUser (Scenario.env "pending") Scenario.now 2%positive
                  (Some 1%positive) Scenario.world)) !! 2%positive
      = Some user'
    /\ User.planExpiresAt user' = Some (addDays Scenario.now 30).
Proof.
  assert (Hnow : 0 <= Scenario.now) by (vm_compute; discriminate).
  destruct (admin_assignment_follows_the_rule (Scenario.env "pending") Scenario.now
              2%positive 1%positive Scenario.bia Scenario.pro Scenario.world
              eq_refl eq_refl eq_refl eq_refl eq_refl (or_introl Hnow))
    as (user' & Hu & _ & Hexp & _).
  exists user'. split; [exact Hu | exact Hexp].
Defined.

(** X25: [assignPlanToUser] without a plan id takes the plan from the user:
    [planId] and [planExpiresAt] become null, the usage counters and every
    other row stay, and no plan is looked up. *)
Theorem admin_assignment_of_no_plan_removes_it env now userId user w :
  storeFault env OpUserFindByPk = None ->
  storeFault env OpUserUpdate = None ->
  users w !! userId = Some user ->
  assignPlanToUser env now userId None w
  = (set_users (insert userId (remove_plan_values None user)) w, Returned PlanRemoved)
  /\ User.planId (remove_plan_values None user) = None
  /\ User.planExpiresAt (remove_plan_values None user) = None
  /\ User.transcriptionsUsedCount (remove_plan_values None user)
     = User.transcriptionsUsedCount user.
Proof.
  intros Hf Hfu Hu. split; [| repeat split].
  unfold assignPlanToUser, User_findByPk, User_update, store.
  rewrite Hf, Hfu. run. rewrite Hu. cbn [fmap option_fmap option_map]. run.
  f_equal. f_equal.
  apply map_eq. intros k. destruct (decide (k = userId)) as [-> | Hne].
  - now rewrite lookup_alter_eq, lookup_insert_eq, Hu.
  - now rewrite lookup_alter_ne, lookup_insert_ne by congruence.
Qed.

Lemma admin_assignment_of_no_plan_removes_it_witness :
  assignPlanToUser (Scenario.env "pending") Scenario.now 2%positive None Scenario.world
  = (set_users (insert 2%positive (remove_plan_values None Scenario.bia)) Scenario.world,
     Returned PlanRemoved).
Proof.
  exact (proj1 (admin_assignment_of_no_plan_removes_it (Scenario.env "pending") Scenario.now
                  2%positive Scenario.bia Scenario.world eq_refl eq_refl eq_refl)).
Defined.

(** X26: [assignPlanToUser] for a user that does not exist, or for a plan
    that does not exist, throws the matching "not found" error with its own
    message, and leaves the whole state as it was.  The user is looked up
    first. *)
Theorem admin_assignment_not_found env now userId planId w :
  storeFault env OpUserFindByPk = None ->
  storeFault env OpPlanFindByPk = None ->
  (users w !! userId = None ->
   assignPlanToUser env now userId planId w = (w, Threw (new_Error msg_no_user)))
  /\ (forall user planKey,
        users w !! userId = Some user ->
        planId = Some planKey ->
        plans w !! planKey = None ->
        assignPlanToUser env now userId planId w = (w, Threw (new_Error msg_no_plan))).
Proof.
  intros Hf Hfp. split.
  - intros Hu. unfold assignPlanToUser, User_findByPk, store.
    rewrite Hf. run. rewrite Hu. reflexivity.
  - intros user planKey Hu -> Hp.
    unfold assignPlanToUser, User_findByPk, Plan_findByPk, store.
    rewrite Hf, Hfp. run. rewrite Hu. cbn [fmap option_fmap option_map]. run.
    rewrite Hp. cbn [fmap option_fmap option_map]. now destruct w.
Qed.

Lemma admin_assignment_not_found_witness :
  assignPlanToUser (Scenario.env "pending") Scenario.now 50%positive (Some 1%positive)
    Scenario.world
  = (Scenario.world, Threw (new_Error msg_no_user))
  /\ assignPlanToUser (Scenario.env "pending") Scenario.now 1%positive (Some 50%positive)
       Scenario.world
     = (Scenario.world, Threw (new_Error msg_no_plan)).
Proof.
  split.
  - exact (proj1 (admin_assignment_not_found (Scenario.env "pending") Scenario.now
                    50%positive (Some 1%positive) Scenario.world eq_refl eq_refl) eq_refl).
  - exact (proj2 (admin_assignment_not_found (Scenario.env "pending") Scenario.now
                    1%positive (Some 50%positive) Scenario.world eq_refl eq_refl)
             Scenario.ana 50%positive eq_refl eq_refl eq_refl).
Defined.

(** X27: the webhook's grant and the administrator's assignment write the
    same user row whenever the user is already on the order's plan, or has
    no expiration that is still in the future.  (The case left out is
    a user on another plan that has not expired, where the webhook carries
    the remaining time over.) *)
Theorem webhook_grant_agrees_with_admin_assignment env now n wd body id row user plan w :
  n_type n = "preapproval" ->
  n_data n = Some wd ->
  preapproval_get env (wd_id wd) = Returned body ->
  Preapproval.external_reference body = Some id ->
  Preapproval.status body = "authorized" ->
  healthy env ->
  orders w !! id = Some row ->
  users w !! SubscriptionOrder.userId row = Some user ->
  plans w !! SubscriptionOrder.planId row = Some plan ->
  0 <= now ->
  User.planId user = Some (SubscriptionOrder.planId row)
    \/ User.planExpiresAt user = None
    \/ (exists currentExpiration,
          User.planExpiresAt user = Some currentExpiration /\ currentExpiration <= now) ->
  users (fst (processWebhook env now (Some n) w))
  = users (fst (assignPlanToUser env now (SubscriptionOrder.userId row)
                  (Some (SubscriptionOrder.planId row)) w)).
Proof.
  intros Ht Hd Hg Hr Hs Hh Ho Hu Hp Hnow Hcase.
  rewrite (processWebhook_authorized env now n wd body id row user plan w) by assumption.
  rewrite (assignPlanToUser_assigns env now (SubscriptionOrder.userId row)
             (SubscriptionOrder.planId row) user plan w) by auto.
  simpl. f_equal. f_equal.
  unfold newExpirationDate, grantOrExtend_spec.
  destruct (User.planExpiresAt user) as [current |] eqn:He; [| reflexivity].
  destruct Hcase as [Hsame | [Hnone | (c & Hc & Hle)]].
  - rewrite bool_decide_eq_true_2 by exact Hsame. simpl.
    now destruct (now <? current).
  - discriminate.
  - injection Hc as <-. apply Z.ltb_ge in Hle. rewrite Hle.
    now rewrite andb_false_r.
Qed.

Lemma webhook_grant_agrees_with_admin_assignment_witness :
  users (fst (processWebhook (Scenario.env "authorized") Scenario.now
                (Scenario.notification 71%positive) Scenario.world))
  = users (fst (assignPlanToUser (Scenario.env "authorized") Scenario.now 1%positive
                  (Some 1%positive) Scenario.world)).
Proof.
  assert (Hnow : 0 <= Scenario.now) by (vm_compute; discriminate).
  exact (webhook_grant_agrees_with_admin_assignment
           (Scenario.env "authorized") Scenario.now
           {| n_type := "preapproval"; n_data := Some {| wd_id := Some 71%positive |} |}
           {| wd_id := Some 71%positive |}
           (Scenario.preapproval 71%positive "authorized" (Some 1%positive))
           1%positive (Scenario.order 1%positive pending 71%positive)
           Scenario.ana Scenario.pro Scenario.world
           eq_refl eq_refl eq_refl eq_refl eq_refl
           (scenario_env_healthy "authorized") eq_refl eq_refl eq_refl
           Hnow (or_intror (or_introl eq_refl))).
Defined.

(** ** Listing the orders *)







(** ** The expiration a grant writes *)


